(** * JustPaste download backend (src/app.py): a shallow embedding

    The Flask application of src/app.py is embedded as pure functions over an
    explicit world (file system, history table, trace of observable events).
    Everything the handler cannot decide by itself (the extraction engine,
    the temporary-directory allocator, the clock, the database commit, the
    file sender and the recursive directory removal) is an oracle collected
    in the record [Env].

    Python exceptions are the instances of [Exception] that the handlers
    catch; strings are byte strings and [str.lower] folds the ASCII letters. *)

From Stdlib Require Import Ascii.
From stdpp Require Import base option list strings gmap fin_maps pretty sorting.


(** ** Python string primitives *)

(** [s.startswith(p)] *)
Fixpoint startswith (s p : string) : bool :=
  match p with
  | EmptyString => true
  | String b p' =>
      match s with
      | EmptyString => false
      | String a s' => if Ascii.eqb a b then startswith s' p' else false
      end
  end.

(** [s[n:]] *)
Fixpoint str_drop (n : nat) (s : string) : string :=
  match n with
  | O => s
  | S n' => match s with
            | EmptyString => EmptyString
            | String _ s' => str_drop n' s'
            end
  end.

(** [s.endswith(p)]: the last [len(p)] characters of [s] are compared with [p]. *)
Definition endswith (s p : string) : bool :=
  if Nat.leb (String.length p) (String.length s)
  then String.eqb (str_drop (String.length s - String.length p) s) p
  else false.

Definition is_upper (c : ascii) : bool :=
  (Nat.leb 65 (nat_of_ascii c) && Nat.leb (nat_of_ascii c) 90)%bool.

Definition ascii_lower (c : ascii) : ascii :=
  if is_upper c then ascii_of_nat (nat_of_ascii c + 32) else c.

(** [s.lower()] *)
Fixpoint lower (s : string) : string :=
  match s with
  | EmptyString => EmptyString
  | String c s' => String (ascii_lower c) (lower s')
  end.

(** [s.split('.')[0]]: the characters before the first dot. *)
Fixpoint before_first_dot (s : string) : string :=
  match s with
  | EmptyString => EmptyString
  | String c s' => if Ascii.eqb c "." then EmptyString
                   else String c (before_first_dot s')
  end.

(** ** posixpath *)

(** [(p[:i], p[i:])] for [i = p.rfind('/') + 1]. *)
Fixpoint rsplit_slash (p : string) : string * string :=
  match p with
  | EmptyString => (EmptyString, EmptyString)
  | String c r =>
      let '(h, t) := rsplit_slash r in
      match h with
      | String _ _ => (String c h, t)
      | EmptyString => if Ascii.eqb c "/" then (String c EmptyString, r)
                       else (EmptyString, String c r)
      end
  end.

(** [s.rstrip('/')] *)
Fixpoint rstrip_slash (s : string) : string :=
  match s with
  | EmptyString => EmptyString
  | String c r =>
      match rstrip_slash r with
      | EmptyString => if Ascii.eqb c "/" then EmptyString else String c EmptyString
      | r' => String c r'
      end
  end.

(** [os.path.dirname]: the head of the split, without its trailing slashes
    unless it consists of slashes only. *)
Definition path_dirname (p : string) : string :=
  let head := fst (rsplit_slash p) in
  match rstrip_slash head with
  | EmptyString => head
  | stripped => stripped
  end.

(** [os.path.basename] *)
Definition path_basename (p : string) : string := snd (rsplit_slash p).

(** [os.path.join(a, b)] *)
Definition path_join (a b : string) : string :=
  if startswith b "/" then b
  else if (String.eqb a "" || endswith a "/")%bool then a +:+ b
  else a +:+ "/" +:+ b.

(** ** Values of option dictionaries and JSON bodies *)

Inductive pyval : Type :=
  | PyStr (s : string)
  | PyBool (b : bool)
  | PyInt (n : Z)
  | PyDicts (ds : list (list (string * string))).

Abbreviation pydict := (gmap string pyval).

(** ** Module constants *)

Definition DEFAULT_USER_AGENT : string :=
  "Mozilla/5.0 (Windows NT 10.0; Win64; x64) AppleWebKit/537.36 " +:+
  "(KHTML, like Gecko) Chrome/94.0.4606.81 Safari/537.36".

Definition MAX_DOWNLOAD_RETRIES : nat := 2.
Definition MAX_WORKERS : nat := 4.

(** ** Exceptions *)

Inductive exn_class : Type :=
  | ValueError
  | FileNotFoundError
  | FileExistsError
  | OSError
  | DownloadError
  | SQLAlchemyError.

(** An exception instance; [exn_msg] is what [str(e)] returns. *)
Record exn : Type := Exn { exn_cls : exn_class; exn_msg : string }.

(** ** get_ydl_opts *)

Definition get_ydl_opts (file_format quality output_template : string)
  : exn + pydict :=
  if String.eqb file_format "mp4" then
    let fmt := "bestvideo+bestaudio/best" in
    inr (list_to_map
      [ ("format", PyStr fmt);
        ("outtmpl", PyStr output_template);
        ("quiet", PyBool true);
        ("ignoreerrors", PyBool false);
        ("nocheckcertificate", PyBool true);
        ("user_agent", PyStr DEFAULT_USER_AGENT);
        ("merge_output_format", PyStr "mp4");
        ("retries", PyInt (Z.of_nat MAX_DOWNLOAD_RETRIES));
        ("concurrent_fragment_downloads", PyInt 5) ])
  else if String.eqb file_format "mp3" then
    inr (list_to_map
      [ ("format", PyStr "bestaudio/best");
        ("outtmpl", PyStr output_template);
        ("postprocessors",
           PyDicts [ [ ("key", "FFmpegExtractAudio");
                       ("preferredcodec", "mp3");
                       ("preferredquality", "192") ] ]);
        ("quiet", PyBool true);
        ("ignoreerrors", PyBool false);
        ("nocheckcertificate", PyBool true);
        ("user_agent", PyStr DEFAULT_USER_AGENT);
        ("retries", PyInt (Z.of_nat MAX_DOWNLOAD_RETRIES)) ])
  else if (String.eqb file_format "jpg" || String.eqb file_format "png")%bool then
    inr (list_to_map
      [ ("skip_download", PyBool true);
        ("write_thumbnail", PyBool true);
        ("outtmpl", PyStr output_template);
        ("quiet", PyBool true);
        ("ignoreerrors", PyBool false);
        ("nocheckcertificate", PyBool true) ])
  else
    inl (Exn ValueError ("Unsupported format: " +:+ file_format)).


(** ** The history table *)

(** A naive [datetime], as [datetime.utcnow] returns it. *)
Record datetime : Type := DateTime {
  dt_year : nat; dt_month : nat; dt_day : nat;
  dt_hour : nat; dt_minute : nat; dt_second : nat; dt_microsecond : nat }.

(** A row of [DownloadHistory]. *)
Record DownloadHistory : Type := Row {
  rec_id : nat;
  rec_url : string;
  rec_file_format : string;
  rec_quality : string;
  rec_timestamp : datetime }.

Fixpoint zeros (n : nat) : string :=
  match n with
  | O => EmptyString
  | S n' => String "0" (zeros n')
  end.

(** The conversion ["%0<width>d" % n]. *)
Definition fmt_d (width n : nat) : string :=
  let s := pretty n in zeros (width - String.length s) +:+ s.

(** [datetime.isoformat()] of a naive value: the fraction is printed only when
    the microseconds are not zero. *)
Definition isoformat (d : datetime) : string :=
  fmt_d 4 (dt_year d) +:+ "-" +:+ fmt_d 2 (dt_month d) +:+ "-" +:+
  fmt_d 2 (dt_day d) +:+ "T" +:+
  fmt_d 2 (dt_hour d) +:+ ":" +:+ fmt_d 2 (dt_minute d) +:+ ":" +:+
  fmt_d 2 (dt_second d) +:+
  (if Nat.eqb (dt_microsecond d) 0 then ""
   else "." +:+ fmt_d 6 (dt_microsecond d)).

(** The decimal digit of the units of [n]. *)
Definition digit (n : nat) : ascii := ascii_of_nat (48 + n mod 10).

(** The [width] lowest decimal digits of [n], most significant first. *)
Fixpoint digits (width n : nat) : string :=
  match width with
  | O => EmptyString
  | S width' => digits width' (n / 10) +:+ String (digit n) EmptyString
  end.

(** The ranges [datetime] enforces on its fields. *)
Definition valid_datetime (d : datetime) : Prop :=
  1 ≤ dt_year d < 10 ^ 4 ∧ 1 ≤ dt_month d ≤ 12 ∧ 1 ≤ dt_day d ≤ 31
  ∧ dt_hour d < 24 ∧ dt_minute d < 60 ∧ dt_second d < 60
  ∧ dt_microsecond d < 10 ^ 6.

(** The extended ISO-8601 form [YYYY-MM-DDThh:mm:ss], with the fraction
    [.ffffff] when there is one. *)
Definition iso8601 (d : datetime) : string :=
  digits 4 (dt_year d) +:+ "-" +:+ digits 2 (dt_month d) +:+ "-" +:+
  digits 2 (dt_day d) +:+ "T" +:+
  digits 2 (dt_hour d) +:+ ":" +:+ digits 2 (dt_minute d) +:+ ":" +:+
  digits 2 (dt_second d) +:+
  (if Nat.eqb (dt_microsecond d) 0 then ""
   else "." +:+ digits 6 (dt_microsecond d)).

(** [DownloadHistory.as_dict] *)
Definition as_dict (self : DownloadHistory) : pydict :=
  list_to_map
    [ ("id", PyInt (Z.of_nat (rec_id self)));
      ("url", PyStr (rec_url self));
      ("file_format", PyStr (rec_file_format self));
      ("quality", PyStr (rec_quality self));
      ("timestamp", PyStr (isoformat (rec_timestamp self) +:+ "Z")) ].

Definition dt_fields (d : datetime) : list nat :=
  [ dt_year d; dt_month d; dt_day d;
    dt_hour d; dt_minute d; dt_second d; dt_microsecond d ].

(** Chronological comparison: lexicographic on the fields. *)
Fixpoint lex_leb (a b : list nat) : bool :=
  match a, b with
  | [], _ => true
  | _ :: _, [] => false
  | x :: a', y :: b' =>
      if Nat.ltb x y then true
      else if Nat.ltb y x then false
      else lex_leb a' b'
  end.

Definition dt_leb (a b : datetime) : bool := lex_leb (dt_fields a) (dt_fields b).

(** [r] is at least as recent as [r']. *)
Definition newer_eq (r r' : DownloadHistory) : Prop :=
  dt_leb (rec_timestamp r') (rec_timestamp r) = true.

(** [ORDER BY timestamp DESC], as an insertion into a descending list. *)
Fixpoint insert_desc (r : DownloadHistory) (l : list DownloadHistory)
  : list DownloadHistory :=
  match l with
  | [] => [r]
  | r' :: l' =>
      if dt_leb (rec_timestamp r') (rec_timestamp r) then r :: l
      else r' :: insert_desc r l'
  end.

Fixpoint order_by_timestamp_desc (rows : list DownloadHistory)
  : list DownloadHistory :=
  match rows with
  | [] => []
  | r :: rows' => insert_desc r (order_by_timestamp_desc rows')
  end.

(** The next primary key of the table. *)
Definition next_id (rows : list DownloadHistory) : nat :=
  S (foldr Nat.max 0 (rec_id <$> rows)).

(** ** The world and its observable events *)

Inductive log_level : Type := WARNING | ERROR.

Inductive event : Type :=
  | EvMkdtemp (tmp : string)
  | EvExtractInfo (url : string) (opts : pydict) (outcome : option exn)
  | EvLog (level : log_level) (msg : string)
  | EvListdir (directory : string)
  | EvDbAdd (url file_format quality : string)
  | EvDbCommit
  | EvSendFile (path download_name : string)
  | EvRmtree (path : string).

(** Directories are mapped to their entries in [os.listdir] order. *)
Abbreviation filesystem := (gmap string (list string)).

Record World : Type := MkWorld {
  fs : filesystem;
  db : list DownloadHistory;
  trace : list event }.

(** What the handler cannot decide by itself. *)
Record Env : Type := MkEnv {
  (** the name [tempfile.mkdtemp] picks, or its error *)
  env_mkdtemp : filesystem → exn + string;
  (** one run of the extraction engine, given the number of earlier runs:
      the files it leaves behind and the exception it raises, if any *)
  env_extract_info : nat → string → pydict → filesystem → filesystem * option exn;
  (** [datetime.utcnow()] at a logical time *)
  env_utcnow : nat → datetime;
  (** the error of [db.session.commit()], if any *)
  env_commit_error : list DownloadHistory → option exn;
  (** the error of [send_file], if any *)
  env_send_file_error : filesystem → string → option exn;
  (** the operating-system error met while removing a tree, if any *)
  env_rmtree_error : filesystem → string → option exn }.

(** ** A state and exception monad *)

Definition M (A : Type) : Type := World → (exn + A) * World.

Definition ret {A} (a : A) : M A := λ w, (inr a, w).
Definition raise {A} (e : exn) : M A := λ w, (inl e, w).
Definition bind {A B} (m : M A) (k : A → M B) : M B :=
  λ w, match m w with
       | (inr a, w') => k a w'
       | (inl e, w') => (inl e, w')
       end.
Definition lift {A} (r : exn + A) : M A :=
  match r with inl e => raise e | inr a => ret a end.

Declare Scope py_scope.
Delimit Scope py_scope with py.
Notation "x <- m ;; k" := (bind m (λ x, k))
  (at level 100, m at next level, right associativity) : py_scope.
Notation "m ;;; k" := (bind m (λ _, k))
  (at level 100, right associativity) : py_scope.

(** [try: body except Exception as e: handler e] *)
Definition try_except {A} (body : M A) (handler : exn → M A) : M A :=
  λ w, match body w with
       | (inl e, w') => handler e w'
       | r => r
       end.

(** [try: body finally: final]: the final block always runs; what it raises
    replaces the outcome of the body. *)
Definition try_finally {A} (body : M A) (final : M unit) : M A :=
  λ w, match body w with
       | (r, w') =>
           match final w' with
           | (inl e, w'') => (inl e, w'')
           | (inr _, w'') => (r, w'')
           end
       end.

Definition emit (e : event) : M unit :=
  λ w, (inr (), MkWorld (fs w) (db w) (trace w ++ [e])).

(** ** Library calls *)

Definition is_extract (e : event) : bool :=
  match e with EvExtractInfo _ _ _ => true | _ => false end.

Definition engine_calls (tr : list event) : nat :=
  length (List.filter is_extract tr).

(** [tempfile.mkdtemp()]: a new, empty directory. *)
Definition mkdtemp (env : Env) : M string :=
  λ w, match env_mkdtemp env (fs w) with
       | inl e => (inl e, w)
       | inr tmp =>
           match fs w !! tmp with
           | Some _ =>
               (inl (Exn FileExistsError "No usable temporary directory name found"), w)
           | None =>
               (inr tmp, MkWorld (<[tmp := []]> (fs w)) (db w)
                                 (trace w ++ [EvMkdtemp tmp]))
           end
       end.

(** [with yt_dlp.YoutubeDL(opts) as ydl: ydl.extract_info(url, download=True)] *)
Definition extract_info (env : Env) (url : string) (opts : pydict) : M unit :=
  λ w, let '(fs', r) :=
         env_extract_info env (engine_calls (trace w)) url opts (fs w) in
       let w' := MkWorld fs' (db w) (trace w ++ [EvExtractInfo url opts r]) in
       match r with
       | Some e => (inl e, w')
       | None => (inr (), w')
       end.

(** [os.listdir(directory)] *)
Definition listdir (directory : string) : M (list string) :=
  λ w, let w' := MkWorld (fs w) (db w) (trace w ++ [EvListdir directory]) in
       match fs w !! directory with
       | Some entries => (inr entries, w')
       | None =>
           (inl (Exn FileNotFoundError
                   ("[Errno 2] No such file or directory: '" +:+ directory +:+ "'")),
            w')
       end.

(** [p] is [root] or lies below it. *)
Definition under (root p : string) : bool :=
  (String.eqb p root || startswith p (root +:+ "/"))%bool.

(** [shutil.rmtree(path, ignore_errors=...)] *)
Definition rmtree (env : Env) (path : string) (ignore_errors : bool) : M unit :=
  λ w, let tr := trace w ++ [EvRmtree path] in
       match env_rmtree_error env (fs w) path with
       | Some e =>
           if ignore_errors then (inr (), MkWorld (fs w) (db w) tr)
           else (inl e, MkWorld (fs w) (db w) tr)
       | None =>
           (inr (),
            MkWorld (filter (λ kv, ¬ under path kv.1) (fs w)) (db w) tr)
       end.

(** The objects added to a session and not yet flushed. *)
Definition session := list (string * string * string).

(** [db.session.add(DownloadHistory(url=..., file_format=..., quality=...))] *)
Definition session_add (s : session) (url file_format quality : string)
  : M session :=
  (emit (EvDbAdd url file_format quality) ;;;
   ret (s ++ [(url, file_format, quality)]))%py.

(** The flush: every pending object gets the next key and the default
    timestamp. *)
Definition flush (now : datetime) (s : session) (rows : list DownloadHistory)
  : list DownloadHistory :=
  fold_left
    (λ rows' '(url, file_format, quality),
       rows' ++ [Row (next_id rows') url file_format quality now])
    s rows.

(** [db.session.commit()] *)
Definition session_commit (env : Env) (s : session) : M unit :=
  λ w, let tr := trace w ++ [EvDbCommit] in
       match env_commit_error env (db w) with
       | Some e => (inl e, MkWorld (fs w) (db w) tr)
       | None =>
           (inr (),
            MkWorld (fs w) (flush (env_utcnow env (length (trace w))) s (db w)) tr)
       end.

Inductive body : Type :=
  | JsonError (msg : string)
  | JsonList (items : list pydict)
  | FileAttachment (path download_name : string).

(** [send_file(path, as_attachment=True, download_name=...)] *)
Definition send_file (env : Env) (path download_name : string) : M (body * nat) :=
  λ w, let w' := MkWorld (fs w) (db w) (trace w ++ [EvSendFile path download_name]) in
       match env_send_file_error env (fs w) path with
       | Some e => (inl e, w')
       | None => (inr (FileAttachment path download_name, 200), w')
       end.

(** ** download_single *)

(** The loop [for attempt in range(...)] around the engine. *)
Fixpoint retry_loop (env : Env) (url : string) (opts : pydict)
    (attempts : list nat) : M unit :=
  match attempts with
  | [] => ret ()
  | attempt :: rest =>
      λ w, match extract_info env url opts w with
           | (inr _, w') => (inr (), w')
           | (inl e, w') =>
               (emit (EvLog WARNING
                        ("Attempt " +:+ pretty (attempt + 1) +:+ " failed: "
                         +:+ exn_msg e)) ;;;
                if Nat.eqb attempt (MAX_DOWNLOAD_RETRIES - 1) then raise e
                else retry_loop env url opts rest)%py w'
           end
  end.

(** The test of the search loop. *)
Definition is_download (prefix file_format f : string) : bool :=
  (startswith f prefix && endswith (lower f) file_format)%bool.

(** The loop [for f in os.listdir(directory)]. *)
Fixpoint find_downloaded (directory prefix file_format : string)
    (entries : list string) : option string :=
  match entries with
  | [] => None
  | f :: rest =>
      if is_download prefix file_format f then Some (path_join directory f)
      else find_downloaded directory prefix file_format rest
  end.

(** The second half of [download_single]: find the downloaded file. *)
Definition find_file (file_format output_template : string) : M string :=
  (let directory := path_dirname output_template in
   let prefix := before_first_dot (path_basename output_template) in
   entries <- listdir directory ;;
   match find_downloaded directory prefix file_format entries with
   | Some p => ret p
   | None =>
       raise (Exn FileNotFoundError
                ("No ." +:+ file_format +:+ " found for " +:+ prefix))
   end)%py.

Definition download_single (env : Env)
    (url file_format quality output_template : string) : M string :=
  (opts <- lift (get_ydl_opts file_format quality output_template) ;;
   retry_loop env url opts (seq 0 MAX_DOWNLOAD_RETRIES) ;;;
   find_file file_format output_template)%py.

(** ** The routes *)

(** [request.args]: the query parameters, in order. *)
Definition Request := list (string * string).

(** [request.args.get(key)]: the first value of the key, or [None]. *)
Fixpoint args_get (args : Request) (key : string) : option string :=
  match args with
  | [] => None
  | (k, v) :: rest => if String.eqb k key then Some v else args_get rest key
  end.

(** [not x] for an optional string. *)
Definition py_not (x : option string) : bool :=
  match x with
  | None => true
  | Some s => String.eqb s ""
  end.

(** [x or d] *)
Definition py_or (x : option string) (d : string) : string :=
  match x with
  | Some s => if String.eqb s "" then d else s
  | None => d
  end.

Definition download_get (env : Env) (args : Request) : M (body * nat) :=
  let url := args_get args "url" in
  let fmt := args_get args "format" in
  let quality := py_or (args_get args "quality") "best" in
  if (py_not url || py_not fmt)%bool then
    ret (JsonError "Missing parameters", 400)
  else
    let url := default "" url in
    let fmt := default "" fmt in
    (tmp <- mkdtemp env ;;
     try_finally
       (try_except
          (let out := path_join tmp "dl.%(ext)s" in
           path <- download_single env url fmt quality out ;;
           s <- session_add [] url fmt quality ;;
           session_commit env s ;;;
           send_file env path ("JustPaste." +:+ fmt))
          (λ e, emit (EvLog ERROR "Download error") ;;;
                ret (JsonError (exn_msg e), 500)))
       (rmtree env tmp true))%py.

Definition history : M (body * nat) :=
  λ w, let recs := order_by_timestamp_desc (db w) in
       (inr (JsonList (as_dict <$> recs), 200), w).

(** ** What the specification says, for comparison *)



(** The supported formats. *)
Definition supported_formats : list string := ["mp4"; "mp3"; "jpg"; "png"].

(** ** Views of a trace *)

Definition attempts_of (evs : list event) : list (option exn) :=
  omap (λ e, match e with EvExtractInfo _ _ r => Some r | _ => None end) evs.

Definition warnings_of (evs : list event) : list string :=
  omap (λ e, match e with EvLog WARNING m => Some m | _ => None end) evs.

Definition is_rmtree (e : event) : bool :=
  match e with EvRmtree _ => true | _ => false end.

Definition is_db_event (e : event) : bool :=
  match e with EvDbAdd _ _ _ | EvDbCommit => true | _ => false end.

Fixpoint has_upper (s : string) : bool :=
  match s with
  | EmptyString => false
  | String c s' => (is_upper c || has_upper s')%bool
  end.

(** The warning of [download_single] for the failed attempt number [k]. *)
Definition attempt_warning (k : nat) (e : exn) : string :=
  "Attempt " +:+ pretty k +:+ " failed: " +:+ exn_msg e.

(** The events of a sequence of engine runs numbered from [k]: each run, and
    after each failed run one warning with its number and cause. *)
Fixpoint attempt_events (url : string) (opts : pydict) (k : nat)
    (atts : list (option exn)) : list event :=
  match atts with
  | [] => []
  | r :: rest =>
      EvExtractInfo url opts r
      :: match r with
         | Some e => [EvLog WARNING (attempt_warning k e)]
         | None => []
         end
      ++ attempt_events url opts (S k) rest
  end.

(** Every event a computation adds to the trace satisfies [P]. *)
Definition emits_only (P : event → Prop) {A} (m : M A) : Prop :=
  ∀ w, ∃ evs, trace (m w).2 = trace w ++ evs ∧ Forall P evs.

(** A computation that leaves the history table alone. *)
Definition keeps_db {A} (m : M A) : Prop := ∀ w, db (m w).2 = db w.

(** A computation that never raises. *)
Definition never_raises {A} (m : M A) : Prop := ∀ w, ∃ a, (m w).1 = inr a.

(** ** Stubs for the scenarios *)

Definition stub_now : datetime := DateTime 2024 1 2 3 4 5 0.

Definition stub_tmp : string := "/tmp/tmpab12".

(** An engine that writes [dl.mp4] on its first run. *)
Definition stub_engine_ok (n : nat) (url : string) (opts : pydict)
    (f : filesystem) : filesystem * option exn :=
  (<[stub_tmp := ["dl.info.json"; "dl.mp4"]]> f, None).

(** An engine that fails on its first run and writes [dl.mp4] on the next. *)
Definition stub_engine_retry (n : nat) (url : string) (opts : pydict)
    (f : filesystem) : filesystem * option exn :=
  if Nat.eqb n 0 then (f, Some (Exn DownloadError "HTTP Error 503"))
  else (<[stub_tmp := ["dl.info.json"; "dl.mp4"]]> f, None).

(** An engine that always fails. *)
Definition stub_engine_down (n : nat) (url : string) (opts : pydict)
    (f : filesystem) : filesystem * option exn :=
  (f, Some (Exn DownloadError "HTTP Error 503")).

Definition stub_env
    (engine : nat → string → pydict → filesystem → filesystem * option exn)
    (rmtree_error : option exn) : Env :=
  MkEnv (λ _, inr stub_tmp) engine (λ _, stub_now) (λ _, None) (λ _ _, None)
        (λ _ _, rmtree_error).

(** The removal of the workspace is refused by the operating system. *)
Definition stub_busy : option exn :=
  Some (Exn OSError "[Errno 16] Device or resource busy").

Definition stub_request : Request :=
  [("url", "https://example.com/video"); ("format", "mp4")].

Definition empty_world : World := MkWorld ∅ [] [].

(** ** Further views, for the properties beyond the claims *)

(** The route [/]. *)
Definition index : string := "JustPaste Backend Running!".

(** The string contains a slash. *)
Fixpoint has_slash (s : string) : bool :=
  match s with
  | EmptyString => false
  | String c s' => (Ascii.eqb c "/" || has_slash s')%bool
  end.

Definition is_warning (e : event) : bool :=
  match e with EvLog WARNING _ => true | _ => false end.

(** The world in which the [try] statement of [download_get] starts. *)
Definition in_workspace (w : World) (tmp : string) : World :=
  MkWorld (<[tmp := []]> (fs w)) (db w) (trace w ++ [EvMkdtemp tmp]).

(** An event that is neither a run of the engine nor a warning. *)
Definition quiet (e : event) : Prop :=
  is_extract e = false ∧ is_warning e = false.

(** A computation that runs the engine at most [MAX_DOWNLOAD_RETRIES] times
    and logs at most one warning per run. *)
Definition engine_bounded {A} (m : M A) : Prop :=
  ∀ w, ∃ evs,
    trace (m w).2 = trace w ++ evs
    ∧ length (attempts_of evs) ≤ MAX_DOWNLOAD_RETRIES
    ∧ length (warnings_of evs) ≤ length (attempts_of evs).

(** * Properties *)

(** ** Strings *)

Lemma append_cons (a : ascii) (s t : string) :
  String a s +:+ t = String a (s +:+ t).
Proof. reflexivity. Qed.

Lemma append_nil_l (t : string) : "" +:+ t = t.
Proof. reflexivity. Qed.

Lemma append_nil_r (s : string) : s +:+ "" = s.
Proof. induction s as [|a s IH]; [done|]. by rewrite append_cons, IH. Qed.

Lemma append_length (s t : string) :
  String.length (s +:+ t) = String.length s + String.length t.
Proof.
  induction s as [|a s IH]; [done|].
  rewrite append_cons. simpl. by rewrite IH.
Qed.

Lemma append_assoc (s t u : string) : (s +:+ t) +:+ u = s +:+ t +:+ u.
Proof. induction s as [|a s IH]; [done|]. by rewrite !append_cons, IH. Qed.

Lemma startswith_append (p r : string) : startswith (p +:+ r) p = true.
Proof.
  induction p as [|b p IH]; [by destruct r|].
  rewrite append_cons. simpl. by rewrite Ascii.eqb_refl.
Qed.

Lemma startswith_inv (s p : string) :
  startswith s p = true → ∃ r, s = p +:+ r.
Proof.
  revert s. induction p as [|b p IH]; intros s H.
  - by exists s.
  - destruct s as [|a s]; [done|]. simpl in H.
    destruct (Ascii.eqb a b) eqn:Hab; [|done].
    apply Ascii.eqb_eq in Hab as ->.
    destruct (IH _ H) as [r ->]. by exists r.
Qed.

Lemma startswith_spec (s p : string) :
  startswith s p = true ↔ ∃ r, s = p +:+ r.
Proof.
  split; [apply startswith_inv|]. intros [r ->]. apply startswith_append.
Qed.

Lemma str_drop_append (q p : string) : str_drop (String.length q) (q +:+ p) = p.
Proof. induction q as [|a q IH]; [done|]. by rewrite append_cons. Qed.

Lemma str_drop_split (n : nat) (s : string) : ∃ q, s = q +:+ str_drop n s.
Proof.
  revert s. induction n as [|n IH]; intros s.
  - by exists "".
  - destruct s as [|a s]; [by exists ""|].
    destruct (IH s) as [q Hq]. exists (String a q).
    rewrite append_cons. simpl. by rewrite <- Hq.
Qed.

Lemma endswith_spec (s p : string) :
  endswith s p = true ↔ ∃ q, s = q +:+ p.
Proof.
  unfold endswith. split.
  - destruct (Nat.leb _ _); [|done]. intros H%String.eqb_eq.
    destruct (str_drop_split (String.length s - String.length p) s) as [q Hq].
    exists q. by rewrite <- H.
  - intros [q ->]. rewrite append_length.
    replace (Nat.leb _ _) with true by (symmetry; apply Nat.leb_le; lia).
    replace (String.length q + String.length p - String.length p)
      with (String.length q) by lia.
    rewrite str_drop_append. apply String.eqb_refl.
Qed.

Lemma lower_append (a b : string) : lower (a +:+ b) = lower a +:+ lower b.
Proof.
  induction a as [|c a IH]; [done|].
  rewrite append_cons. simpl. by rewrite IH.
Qed.

Lemma is_upper_ascii_lower (c : ascii) : is_upper (ascii_lower c) = false.
Proof. destruct c as [[] [] [] [] [] [] [] []]; reflexivity. Qed.

Lemma has_upper_lower (s : string) : has_upper (lower s) = false.
Proof.
  induction s as [|c s IH]; [done|].
  simpl. by rewrite is_upper_ascii_lower, IH.
Qed.

Lemma has_upper_append (q p : string) :
  has_upper (q +:+ p) = (has_upper q || has_upper p)%bool.
Proof.
  induction q as [|c q IH]; [done|].
  rewrite append_cons. simpl. by rewrite IH, orb_assoc.
Qed.

(** A lowercased name never ends with a string that has an uppercase letter. *)
Lemma endswith_lower_upper (f p : string) :
  has_upper p = true → endswith (lower f) p = false.
Proof.
  intros Hp. destruct (endswith (lower f) p) eqn:H; [|done].
  apply endswith_spec in H as [q Hq].
  pose proof (has_upper_lower f) as Hf.
  rewrite Hq, has_upper_append, Hp, orb_true_r in Hf. done.
Qed.

(** ** The search loop of download_single *)

Lemma is_download_spec (prefix file_format f : string) :
  is_download prefix file_format f = true
  ↔ (∃ r, f = prefix +:+ r) ∧ (∃ q, lower f = q +:+ file_format).
Proof.
  unfold is_download.
  by rewrite andb_true_iff, startswith_spec, endswith_spec.
Qed.

Lemma find_downloaded_None (directory prefix file_format : string)
    (entries : list string) :
  find_downloaded directory prefix file_format entries = None
  ↔ Forall (λ g, is_download prefix file_format g = false) entries.
Proof.
  induction entries as [|f rest IH]; simpl.
  - split; [constructor|done].
  - destruct (is_download prefix file_format f) eqn:Hf.
    + split; [done|]. intros H. apply Forall_cons in H as [H _]. congruence.
    + rewrite IH. split; [by constructor|]. by intros [_ ?]%Forall_cons.
Qed.



(** Every format that passes [get_ydl_opts] is already lowercase, so the
    search loop of [download_single] only ever runs with such a format. *)
Lemma get_ydl_opts_inr_lowercase (file_format quality output_template : string)
    (opts : pydict) :
  get_ydl_opts file_format quality output_template = inr opts →
  lower file_format = file_format.
Proof.
  unfold get_ydl_opts.
  destruct (String.eqb file_format "mp4") eqn:H1;
    [by apply String.eqb_eq in H1 as ->|].
  destruct (String.eqb file_format "mp3") eqn:H2;
    [by apply String.eqb_eq in H2 as ->|].
  destruct (String.eqb file_format "jpg") eqn:H3;
    [by apply String.eqb_eq in H3 as ->|].
  destruct (String.eqb file_format "png") eqn:H4;
    [by apply String.eqb_eq in H4 as ->|].
  done.
Qed.

Lemma get_ydl_opts_unsupported (file_format quality output_template : string) :
  file_format ∉ supported_formats →
  get_ydl_opts file_format quality output_template
  = inl (Exn ValueError ("Unsupported format: " +:+ file_format)).
Proof.
  intros H. unfold supported_formats in H.
  apply not_elem_of_cons in H as [H1%String.eqb_neq H].
  apply not_elem_of_cons in H as [H2%String.eqb_neq H].
  apply not_elem_of_cons in H as [H3%String.eqb_neq H].
  apply not_elem_of_cons in H as [H4%String.eqb_neq _].
  unfold get_ydl_opts. by rewrite H1, H2, H3, H4.
Qed.

(** C10: the test of the search loop asks for the prefix at the start of the
    name and for the requested format, exactly as given, at the end of the
    lowercased name; no dot is required before it, so [dl_copymp4] passes for
    [mp4], and an uppercase format such as [MP4] is matched by no name. *)
Theorem is_download_folds_name_only :
  (∀ prefix file_format f,
     is_download prefix file_format f = true
     ↔ (∃ r, f = prefix +:+ r) ∧ (∃ q, lower f = q +:+ file_format))
  ∧ is_download "dl" "mp4" "dl_copymp4" = true
  ∧ find_downloaded "/tmp/ws" "dl" "mp4" ["dl_copymp4"] = Some "/tmp/ws/dl_copymp4"
  ∧ (∀ prefix f, is_download prefix "MP4" f = false)
  ∧ (∀ directory prefix entries,
       find_downloaded directory prefix "MP4" entries = None).
Proof.
  assert (Hup : ∀ prefix f, is_download prefix "MP4" f = false).
  { intros prefix f. unfold is_download.
    rewrite (endswith_lower_upper f "MP4") by reflexivity.
    apply andb_false_r. }
  split; [apply is_download_spec|].
  split; [reflexivity|]. split; [reflexivity|]. split; [exact Hup|].
  intros directory prefix entries. apply find_downloaded_None.
  apply Forall_forall. intros g _. apply Hup.
Qed.




(** An empty workspace makes the resolver raise [FileNotFoundError]. *)
Example find_file_empty_workspace :
  (find_file "mp4" "/tmp/ws/dl.%(ext)s"
     (MkWorld {[ "/tmp/ws" := [] ]} [] [])).1
  = inl (Exn FileNotFoundError "No .mp4 found for dl").
Proof. by vm_compute. Qed.

(** The re-encoded audio file is selected, not the intermediate one. *)
Example find_file_mp3_after_webm :
  (find_file "mp3" "/tmp/ws/dl.%(ext)s"
     (MkWorld {[ "/tmp/ws" := ["dl.webm"; "dl.mp3"] ]} [] [])).1
  = inr "/tmp/ws/dl.mp3".
Proof. by vm_compute. Qed.

(** ** get_ydl_opts *)

(** C4: a format outside mp4, mp3, jpg and png makes [get_ydl_opts] raise the
    unsupported-format error; the selection is a pure function, and in
    [download_single] it comes before the first run of the engine: the
    world, its trace included, is left as it was. *)
Theorem unsupported_format_rejected_first
    (file_format quality output_template : string) :
  file_format ∉ supported_formats →
  get_ydl_opts file_format quality output_template
  = inl (Exn ValueError ("Unsupported format: " +:+ file_format))
  ∧ ∀ env url w,
      download_single env url file_format quality output_template w
      = (inl (Exn ValueError ("Unsupported format: " +:+ file_format)), w).
Proof.
  intros H. split; [by apply get_ydl_opts_unsupported|].
  intros env url w. unfold download_single, bind.
  by rewrite get_ydl_opts_unsupported.
Qed.

Lemma unsupported_format_rejected_first_witness :
("gif" ∉ supported_formats)
  ∧ get_ydl_opts "gif" "best" "/tmp/ws/dl.%(ext)s"
    = inl (Exn ValueError "Unsupported format: gif").
Proof.
  assert (H : "gif" ∉ supported_formats).
  { unfold supported_formats. rewrite !not_elem_of_cons.
    repeat split; [done..|apply not_elem_of_nil]. }
  split; [exact H|].
  exact (proj1 (unsupported_format_rejected_first
                  "gif" "best" "/tmp/ws/dl.%(ext)s" H)).
Defined.

(** C5, as stated, fails: the configuration of the image formats carries
    neither a user agent nor a retry budget. *)
Lemma image_config_counterexample :
  (∃ o, get_ydl_opts "jpg" "best" "/tmp/ws/dl.%(ext)s" = inr o
        ∧ o !! "nocheckcertificate" = Some (PyBool true)
        ∧ o !! "user_agent" = None
        ∧ o !! "retries" = None)
  ∧ ¬ (∀ file_format quality output_template,
         file_format ∈ supported_formats →
         ∃ o, get_ydl_opts file_format quality output_template = inr o
              ∧ o !! "nocheckcertificate" = Some (PyBool true)
              ∧ o !! "user_agent" = Some (PyStr DEFAULT_USER_AGENT)
              ∧ ∃ n, o !! "retries" = Some (PyInt n)).
Proof.
  split.
  - eexists. split; [reflexivity|]. by vm_compute.
  - intros H.
    destruct (H "jpg" "best" "/tmp/ws/dl.%(ext)s") as (o & Ho & _ & Hua & _).
    { unfold supported_formats. set_solver. }
    injection Ho as <-. by vm_compute in Hua.
Qed.

(** C5, amended: for every supported format the configuration disables
    certificate validation; for mp4 and mp3 it also sets the fixed user
    agent and a retry budget of [MAX_DOWNLOAD_RETRIES]. *)
Theorem get_ydl_opts_network_options
    (file_format quality output_template : string) :
  file_format ∈ supported_formats →
  ∃ o, get_ydl_opts file_format quality output_template = inr o
       ∧ o !! "nocheckcertificate" = Some (PyBool true)
       ∧ (file_format = "mp4" ∨ file_format = "mp3" →
          o !! "user_agent" = Some (PyStr DEFAULT_USER_AGENT)
          ∧ o !! "retries" = Some (PyInt (Z.of_nat MAX_DOWNLOAD_RETRIES))).
Proof.
  unfold supported_formats. intros H.
  repeat (apply elem_of_cons in H as [->|H]); [| | | |by apply elem_of_nil in H].
  - eexists. split; [reflexivity|]. split; [by vm_compute|].
    intros _. split; by vm_compute.
  - eexists. split; [reflexivity|]. split; [by vm_compute|].
    intros _. split; by vm_compute.
  - eexists. split; [reflexivity|]. split; [by vm_compute|].
    by intros [?|?].
  - eexists. split; [reflexivity|]. split; [by vm_compute|].
    by intros [?|?].
Qed.

Lemma get_ydl_opts_network_options_witness :
("mp3" ∈ supported_formats)
  ∧ ∃ o, get_ydl_opts "mp3" "best" "/tmp/ws/dl.%(ext)s" = inr o
         ∧ o !! "nocheckcertificate" = Some (PyBool true)
         ∧ ("mp3" = "mp4" ∨ "mp3" = "mp3" →
            o !! "user_agent" = Some (PyStr DEFAULT_USER_AGENT)
            ∧ o !! "retries" = Some (PyInt (Z.of_nat MAX_DOWNLOAD_RETRIES))).
Proof.
  assert (H : "mp3" ∈ supported_formats).
  { unfold supported_formats. rewrite !elem_of_cons. by right; left. }
  split; [exact H|].
  exact (get_ydl_opts_network_options "mp3" "best" "/tmp/ws/dl.%(ext)s" H).
Defined.

(** C7: the configuration does not depend on the quality argument: any two
    quality values give the same result, and with it the same format
    selector, for every format. *)
Theorem get_ydl_opts_ignores_quality
    (file_format quality1 quality2 output_template : string) :
  get_ydl_opts file_format quality1 output_template
  = get_ydl_opts file_format quality2 output_template
  ∧ ∀ o1 o2,
      get_ydl_opts file_format quality1 output_template = inr o1 →
      get_ydl_opts file_format quality2 output_template = inr o2 →
      o1 = o2 ∧ o1 !! "format" = o2 !! "format".
Proof.
  split; [reflexivity|].
  intros o1 o2 H1 H2. unfold get_ydl_opts in H1, H2.
  rewrite H1 in H2. by injection H2 as ->.
Qed.

(** The format selector of the video configuration is the best one whatever
    the quality. *)
Example get_ydl_opts_mp4_quality_ignored quality t :
  ∃ o, get_ydl_opts "mp4" quality t = inr o
       ∧ o !! "format" = Some (PyStr "bestvideo+bestaudio/best").
Proof. eexists. split; [reflexivity|]. by vm_compute. Qed.

(** ** download_get: the parameter check *)

(** C9: when [url] or [format] is absent or empty the handler answers 400
    with the message [Missing parameters] and the world is untouched: no
    workspace is created, the engine is not run, no row is added. *)
Theorem download_get_missing_parameters (env : Env) (args : Request) (w : World) :
  args_get args "url" = None ∨ args_get args "url" = Some ""
  ∨ args_get args "format" = None ∨ args_get args "format" = Some "" →
  download_get env args w = (inr (JsonError "Missing parameters", 400), w).
Proof.
  intros H. unfold download_get.
  assert (Hc : (py_not (args_get args "url")
                || py_not (args_get args "format"))%bool = true).
  { apply orb_true_iff.
    destruct H as [-> | [-> | [-> | ->]]]; [by left|by left|by right|by right]. }
  by rewrite Hc.
Qed.

Lemma download_get_missing_parameters_witness :
  download_get
    (MkEnv (λ _, inr "/tmp/tmpab12") (λ _ _ _ f, (f, None))
           (λ _, DateTime 2024 1 2 3 4 5 0) (λ _, None) (λ _ _, None)
           (λ _ _, None))
    [("url", "https://example.com/video"); ("format", "")]
    (MkWorld ∅ [] [])
  = (inr (JsonError "Missing parameters", 400), MkWorld ∅ [] []).
Proof.
  apply download_get_missing_parameters.
  right. right. right. reflexivity.
Defined.

(** ** The monad *)

Lemma bind_inr_inv {A B} (m : M A) (k : A → M B) (w w' : World) (b : B) :
  bind m k w = (inr b, w') →
  ∃ a w1, m w = (inr a, w1) ∧ k a w1 = (inr b, w').
Proof.
  unfold bind. destruct (m w) as [[e|a] w1]; [done|]. intros H. by exists a, w1.
Qed.

Lemma engine_calls_app (tr evs : list event) :
  engine_calls (tr ++ evs) = engine_calls tr + engine_calls evs.
Proof. unfold engine_calls. by rewrite List.filter_app, length_app. Qed.

(** ** The retry loop *)

(** C2: the loop runs the engine at least once and at most twice; a run that
    succeeds is the last one; every failed run is followed by exactly one
    warning with its number and cause; the failure reaches the caller
    exactly when the second run fails; and when the first run fails and the
    second succeeds the loop ends normally with exactly one warning. *)
Theorem retry_loop_attempts (env : Env) (url : string) (opts : pydict) (w : World) :
  let res := retry_loop env url opts (seq 0 MAX_DOWNLOAD_RETRIES) w in
  let c := engine_calls (trace w) in
  ∃ atts,
    trace res.2 = trace w ++ attempt_events url opts 1 atts
    ∧ attempts_of (attempt_events url opts 1 atts) = atts
    ∧ 1 ≤ length atts ≤ MAX_DOWNLOAD_RETRIES
    ∧ atts !! 0 = Some (env_extract_info env c url opts (fs w)).2
    ∧ (∀ i, atts !! i = Some None → length atts = S i)
    ∧ length (warnings_of (attempt_events url opts 1 atts))
      = length (omap id atts)
    ∧ (∀ e, res.1 = inl e ↔ atts !! 1 = Some (Some e))
    ∧ (res.1 = inr () ↔ last atts = Some None)
    ∧ (∀ fs1 e1 fs2,
         env_extract_info env c url opts (fs w) = (fs1, Some e1) →
         env_extract_info env (S c) url opts fs1 = (fs2, None) →
         res.1 = inr ()
         ∧ atts = [Some e1; None]
         ∧ warnings_of (attempt_events url opts 1 atts)
           = [attempt_warning 1 e1]
         ∧ fs res.2 = fs2).
Proof.
  intros res c. subst res.
  change (seq 0 MAX_DOWNLOAD_RETRIES) with [0; 1].
  unfold retry_loop, extract_info, bind, emit, raise, ret. fold c.
  destruct (env_extract_info env c url opts (fs w)) as [fs1 [e1|]] eqn:H1;
    cbn [fst snd fs db trace Nat.eqb MAX_DOWNLOAD_RETRIES Nat.sub].
  - rewrite !engine_calls_app. fold c.
    change (engine_calls [EvExtractInfo url opts (Some e1)]) with 1.
    change (engine_calls [EvLog WARNING _]) with 0.
    replace (c + 1 + 0) with (S c) by lia.
    destruct (env_extract_info env (S c) url opts fs1) as [fs2 [e2|]] eqn:H2;
      cbn [fst snd fs db trace].
    + exists [Some e1; Some e2]. rewrite <- !app_assoc.
      split; [done|]. split; [done|]. split; [unfold MAX_DOWNLOAD_RETRIES; cbn; lia|]. split; [done|].
      split; [by intros [|[|i]] Hi|]. split; [done|].
      split; [intros e; split; by intros [= ->]|].
      split; [done|].
      intros fs0 e0 fs3 [= <- <-] H3. rewrite H2 in H3. done.
    + exists [Some e1; None]. rewrite <- !app_assoc.
      split; [done|]. split; [done|]. split; [unfold MAX_DOWNLOAD_RETRIES; cbn; lia|]. split; [done|].
      split; [by intros [|[|i]] Hi|]. split; [done|].
      split; [intros e; split; by intros [=]|].
      split; [done|].
      intros fs0 e0 fs3 [= <- <-] H3. rewrite H2 in H3. by simplify_eq.
  - exists [None].
    split; [done|]. split; [done|]. split; [unfold MAX_DOWNLOAD_RETRIES; cbn; lia|]. split; [done|].
    split; [by intros [|i] Hi|]. split; [done|].
    split; [intros e; split; by intros [=]|].
    split; [done|].
    by intros fs0 e0 fs3 [=].
Qed.

(** ** What a computation adds to the trace *)

Section EmitsOnly.
Context (P : event → Prop).

Lemma emits_only_ret {A} (a : A) : emits_only P (ret a).
Proof. intros w. exists []. by rewrite app_nil_r. Qed.

Lemma emits_only_raise {A} (e : exn) : emits_only P (@raise A e).
Proof. intros w. exists []. by rewrite app_nil_r. Qed.

Lemma emits_only_lift {A} (r : exn + A) : emits_only P (lift r).
Proof. destruct r; [apply emits_only_raise|apply emits_only_ret]. Qed.

Lemma emits_only_bind {A B} (m : M A) (k : A → M B) :
  emits_only P m → (∀ a, emits_only P (k a)) → emits_only P (bind m k).
Proof.
  intros Hm Hk w. unfold bind.
  destruct (Hm w) as (evs & Ht & Hf).
  destruct (m w) as [[e|a] w1]; simpl in *; [by exists evs|].
  destruct (Hk a w1) as (evs' & Ht' & Hf').
  exists (evs ++ evs'). rewrite Ht', Ht, app_assoc.
  split; [done|by apply Forall_app].
Qed.

Lemma emits_only_try_except {A} (body : M A) (handler : exn → M A) :
  emits_only P body → (∀ e, emits_only P (handler e)) →
  emits_only P (try_except body handler).
Proof.
  intros Hm Hk w. unfold try_except.
  destruct (Hm w) as (evs & Ht & Hf).
  destruct (body w) as [[e|a] w1]; simpl in *; [|by exists evs].
  destruct (Hk e w1) as (evs' & Ht' & Hf').
  exists (evs ++ evs'). rewrite Ht', Ht, app_assoc.
  split; [done|by apply Forall_app].
Qed.

Lemma emits_only_emit (e : event) : P e → emits_only P (emit e).
Proof. intros He w. exists [e]. split; [done|by constructor]. Qed.

Lemma emits_only_extract_info (env : Env) (url : string) (opts : pydict) :
  (∀ r, P (EvExtractInfo url opts r)) →
  emits_only P (extract_info env url opts).
Proof.
  intros He w. unfold extract_info.
  destruct (env_extract_info _ _ _ _ _) as [fs1 r].
  exists [EvExtractInfo url opts r].
  split; [by destruct r|by constructor].
Qed.

Lemma emits_only_listdir (directory : string) :
  P (EvListdir directory) → emits_only P (listdir directory).
Proof.
  intros He w. unfold listdir. exists [EvListdir directory].
  split; [by destruct (fs w !! directory)|by constructor].
Qed.

Lemma emits_only_session_commit (env : Env) (s : session) :
  P EvDbCommit → emits_only P (session_commit env s).
Proof.
  intros He w. unfold session_commit. exists [EvDbCommit].
  split; [by destruct (env_commit_error env (db w))|by constructor].
Qed.

Lemma emits_only_send_file (env : Env) (path download_name : string) :
  P (EvSendFile path download_name) →
  emits_only P (send_file env path download_name).
Proof.
  intros He w. unfold send_file. exists [EvSendFile path download_name].
  split; [by destruct (env_send_file_error env (fs w) path)|by constructor].
Qed.

Lemma emits_only_retry_loop (env : Env) (url : string) (opts : pydict)
    (attempts : list nat) :
  (∀ r, P (EvExtractInfo url opts r)) → (∀ m, P (EvLog WARNING m)) →
  emits_only P (retry_loop env url opts attempts).
Proof.
  intros He Hl. induction attempts as [|attempt rest IH]; simpl.
  - apply emits_only_ret.
  - intros w.
    destruct (emits_only_extract_info env url opts He w) as (evs & Ht & Hf).
    destruct (extract_info env url opts w) as [[e|[]] w1]; simpl in *;
      [|by exists evs].
    match goal with
    | |- context [bind ?m ?k w1] =>
        destruct (emits_only_bind m k) with (w := w1) as (evs' & Ht' & Hf')
    end.
    { by apply emits_only_emit. }
    { intros _. destruct (Nat.eqb _ _); [apply emits_only_raise|apply IH]. }
    exists (evs ++ evs'). rewrite Ht', Ht, app_assoc.
    split; [done|by apply Forall_app].
Qed.

Lemma emits_only_find_file (file_format output_template : string) :
  (∀ d, P (EvListdir d)) → emits_only P (find_file file_format output_template).
Proof.
  intros Hd. unfold find_file.
  apply emits_only_bind; [by apply emits_only_listdir|].
  intros entries. destruct (find_downloaded _ _ _ _);
    [apply emits_only_ret|apply emits_only_raise].
Qed.

Lemma emits_only_download_single (env : Env)
    (url file_format quality output_template : string) :
  (∀ u o r, P (EvExtractInfo u o r)) → (∀ m, P (EvLog WARNING m)) →
  (∀ d, P (EvListdir d)) →
  emits_only P (download_single env url file_format quality output_template).
Proof.
  intros He Hl Hd. unfold download_single.
  apply emits_only_bind; [apply emits_only_lift|]. intros opts.
  apply emits_only_bind; [by apply emits_only_retry_loop|]. intros _.
  by apply emits_only_find_file.
Qed.
End EmitsOnly.

(** ** Computations that never raise, and the final block *)

Lemma never_raises_try_except {A} (body : M A) (handler : exn → M A) :
  (∀ e, never_raises (handler e)) → never_raises (try_except body handler).
Proof.
  intros Hh w. unfold try_except.
  destruct (body w) as [[e|a] w1]; [apply Hh|by exists a].
Qed.

Lemma never_raises_log_and_return {A} (e : event) (a : A) :
  never_raises (bind (emit e) (λ _, ret a)).
Proof. intros w. by exists a. Qed.

Lemma under_refl (path : string) : under path path = true.
Proof. unfold under. by rewrite String.eqb_refl. Qed.

(** [rmtree] with [ignore_errors=True] never raises, adds one event, and
    removes the directory unless the operating system refuses. *)
Lemma rmtree_ignore_errors (env : Env) (path : string) (w : World) :
  let res := rmtree env path true w in
  res.1 = inr ()
  ∧ trace res.2 = trace w ++ [EvRmtree path]
  ∧ db res.2 = db w
  ∧ (env_rmtree_error env (fs w) path = None → fs res.2 !! path = None).
Proof.
  unfold rmtree. destruct (env_rmtree_error env (fs w) path); simpl.
  - by repeat split.
  - repeat split. intros _. apply map_lookup_filter_None. right.
    intros x _ H. simpl in H. by rewrite under_refl in H.
Qed.

(** A body that never raises, in front of the final [rmtree]. *)
Lemma try_finally_rmtree {A} (body : M A) (env : Env) (tmp : string) (w : World) :
  emits_only (λ e, is_rmtree e = false) body →
  never_raises body →
  let res := try_finally body (rmtree env tmp true) w in
  (∃ a, res.1 = inr a)
  ∧ (∃ evs, trace res.2 = trace w ++ evs ++ [EvRmtree tmp]
            ∧ Forall (λ e, is_rmtree e = false) evs)
  ∧ ((∀ f, env_rmtree_error env f tmp = None) → fs res.2 !! tmp = None).
Proof.
  intros He Hn. unfold try_finally.
  destruct (He w) as (evs & Ht & Hf). destruct (Hn w) as [a Ha].
  destruct (body w) as [r w1]; simpl in *. subst r.
  destruct (rmtree_ignore_errors env tmp w1) as (Hr & Htr & _ & Hfs).
  destruct (rmtree env tmp true w1) as [[e|[]] w2]; simpl in *; [done|].
  split; [by exists a|]. split.
  - exists evs. by rewrite Htr, Ht, app_assoc.
  - intros Hok. by apply Hfs.
Qed.

(** ** download_get: the workspace *)

(** C1, as stated, fails: when the operating system refuses the removal,
    [rmtree] swallows the error and the workspace is still there when the
    handler returns, after a successful job and after a failed one. *)
Lemma workspace_left_behind_counterexample :
  (download_get (stub_env stub_engine_ok stub_busy) stub_request empty_world).1
  = inr (FileAttachment "/tmp/tmpab12/dl.mp4" "JustPaste.mp4", 200)
  ∧ fs (download_get (stub_env stub_engine_ok stub_busy) stub_request
          empty_world).2 !! stub_tmp
    = Some ["dl.info.json"; "dl.mp4"]
  ∧ (download_get (stub_env stub_engine_down stub_busy) stub_request
       empty_world).1
    = inr (JsonError "HTTP Error 503", 500)
  ∧ fs (download_get (stub_env stub_engine_down stub_busy) stub_request
          empty_world).2 !! stub_tmp
    = Some []
  ∧ ¬ (∀ env args w url fmt tmp,
         args_get args "url" = Some url → url ≠ "" →
         args_get args "format" = Some fmt → fmt ≠ "" →
         env_mkdtemp env (fs w) = inr tmp → fs w !! tmp = None →
         (∃ resp, (download_get env args w).1 = inr resp)
         ∧ fs (download_get env args w).2 !! tmp = None).
Proof.
  split; [by vm_compute|]. split; [by vm_compute|].
  split; [by vm_compute|]. split; [by vm_compute|].
  intros H.
  destruct (H (stub_env stub_engine_ok stub_busy) stub_request empty_world
              "https://example.com/video" "mp4" stub_tmp) as [_ Hgone];
    [by vm_compute..|].
  by vm_compute in Hgone.
Qed.

(** Past the parameter check and the creation of the workspace, the handler
    is its [try] statement run in the world that has the new directory. *)
Lemma download_get_in_workspace (env : Env) (args : Request) (w : World)
    (url fmt tmp : string) :
  args_get args "url" = Some url → url ≠ "" →
  args_get args "format" = Some fmt → fmt ≠ "" →
  env_mkdtemp env (fs w) = inr tmp → fs w !! tmp = None →
  download_get env args w
  = try_finally
      (try_except
         (let quality := py_or (args_get args "quality") "best" in
          path <- download_single env url fmt quality
                    (path_join tmp "dl.%(ext)s") ;;
          s <- session_add [] url fmt quality ;;
          session_commit env s ;;;
          send_file env path ("JustPaste." +:+ fmt))%py
         (λ e, emit (EvLog ERROR "Download error") ;;;
               ret (JsonError (exn_msg e), 500))%py)
      (rmtree env tmp true)
      (MkWorld (<[tmp := []]> (fs w)) (db w) (trace w ++ [EvMkdtemp tmp])).
Proof.
  intros Hurl Hu Hfmt Hf Htmp Hfresh. unfold download_get.
  rewrite Hurl, Hfmt. simpl.
  apply String.eqb_neq in Hu, Hf. rewrite Hu, Hf. simpl.
  unfold bind at 1, mkdtemp. by rewrite Htmp, Hfresh.
Qed.

(** C1, amended: once the workspace has been created, on every path out of
    the handler the removal of the workspace is attempted exactly once, as
    the last step; the removal never raises, so the handler always returns a
    response; and the directory is gone on exit whenever the operating
    system does not refuse the removal. *)
Theorem download_get_workspace_cleanup (env : Env) (args : Request) (w : World)
    (url fmt tmp : string) :
  args_get args "url" = Some url → url ≠ "" →
  args_get args "format" = Some fmt → fmt ≠ "" →
  env_mkdtemp env (fs w) = inr tmp → fs w !! tmp = None →
  let res := download_get env args w in
  (∃ resp, res.1 = inr resp)
  ∧ (∃ evs, trace res.2 = trace w ++ EvMkdtemp tmp :: evs ++ [EvRmtree tmp]
            ∧ Forall (λ e, is_rmtree e = false) evs)
  ∧ ((∀ f, env_rmtree_error env f tmp = None) → fs res.2 !! tmp = None).
Proof.
  intros Hurl Hu Hfmt Hf Htmp Hfresh res. subst res.
  rewrite (download_get_in_workspace env args w url fmt tmp) by done.
  match goal with
  | |- context [try_finally ?b _ ?w1] =>
      destruct (try_finally_rmtree b env tmp w1) as (Hr & (evs & Ht & He) & Hfs)
  end.
  - apply emits_only_try_except.
    + apply emits_only_bind; [by apply emits_only_download_single|]. intros path.
      apply emits_only_bind.
      { apply emits_only_bind; [by apply emits_only_emit|]. intros _.
        apply emits_only_ret. }
      intros s. apply emits_only_bind; [by apply emits_only_session_commit|].
      intros _. by apply emits_only_send_file.
    + intros e. apply emits_only_bind; [by apply emits_only_emit|]. intros _.
      apply emits_only_ret.
  - apply never_raises_try_except. intros e. apply never_raises_log_and_return.
  - split; [exact Hr|]. split; [|exact Hfs].
    exists evs. split; [|exact He].
    etrans; [exact Ht|]. simpl. by rewrite <- app_assoc.
Qed.

Lemma download_get_workspace_cleanup_witness :
  (∃ resp, (download_get (stub_env stub_engine_down None) stub_request
              empty_world).1 = inr resp)
  ∧ (∃ evs, trace (download_get (stub_env stub_engine_down None) stub_request
                     empty_world).2
            = [] ++ EvMkdtemp stub_tmp :: evs ++ [EvRmtree stub_tmp]
            ∧ Forall (λ e, is_rmtree e = false) evs)
  ∧ ((∀ f, env_rmtree_error (stub_env stub_engine_down None) f stub_tmp = None) →
     fs (download_get (stub_env stub_engine_down None) stub_request
           empty_world).2 !! stub_tmp = None).
Proof.
  apply (download_get_workspace_cleanup (stub_env stub_engine_down None)
           stub_request empty_world "https://example.com/video" "mp4" stub_tmp);
    by vm_compute.
Defined.

(** ** What leaves the history table alone *)

Lemma keeps_db_ret {A} (a : A) : keeps_db (ret a).
Proof. done. Qed.

Lemma keeps_db_raise {A} (e : exn) : keeps_db (@raise A e).
Proof. done. Qed.

Lemma keeps_db_bind {A B} (m : M A) (k : A → M B) :
  keeps_db m → (∀ a, keeps_db (k a)) → keeps_db (bind m k).
Proof.
  intros Hm Hk w. unfold bind. specialize (Hm w).
  destruct (m w) as [[e|a] w1]; simpl in *; [done|].
  by rewrite Hk.
Qed.

Lemma keeps_db_extract_info (env : Env) (url : string) (opts : pydict) :
  keeps_db (extract_info env url opts).
Proof.
  intros w. unfold extract_info.
  by destruct (env_extract_info _ _ _ _ _) as [fs1 [e|]].
Qed.

Lemma keeps_db_retry_loop (env : Env) (url : string) (opts : pydict)
    (attempts : list nat) :
  keeps_db (retry_loop env url opts attempts).
Proof.
  induction attempts as [|attempt rest IH]; simpl; [done|].
  intros w. pose proof (keeps_db_extract_info env url opts w) as Hx.
  destruct (extract_info env url opts w) as [[e|[]] w1]; simpl in *; [|done].
  rewrite <- Hx. apply keeps_db_bind; [done|]. intros _.
  destruct (Nat.eqb _ _); [done|apply IH].
Qed.

Lemma keeps_db_find_file (file_format output_template : string) :
  keeps_db (find_file file_format output_template).
Proof.
  unfold find_file. apply keeps_db_bind.
  - intros w. unfold listdir. by destruct (fs w !! _).
  - intros entries. by destruct (find_downloaded _ _ _ _).
Qed.

Lemma keeps_db_download_single (env : Env)
    (url file_format quality output_template : string) :
  keeps_db (download_single env url file_format quality output_template).
Proof.
  unfold download_single. apply keeps_db_bind.
  - by destruct (get_ydl_opts _ _ _).
  - intros opts. apply keeps_db_bind; [apply keeps_db_retry_loop|].
    intros _. apply keeps_db_find_file.
Qed.

(** ** The successful job *)

(** A successful [download_single] ends with the listing of the workspace,
    in which the returned path was found. *)
Lemma download_single_success (env : Env)
    (url file_format quality output_template : string) (w w' : World)
    (p : string) :
  download_single env url file_format quality output_template w = (inr p, w') →
  let directory := path_dirname output_template in
  let prefix := before_first_dot (path_basename output_template) in
  ∃ pre entries,
    trace w' = trace w ++ pre ++ [EvListdir directory]
    ∧ Forall (λ e, is_db_event e = false) pre
    ∧ fs w' !! directory = Some entries
    ∧ find_downloaded directory prefix file_format entries = Some p
    ∧ db w' = db w.
Proof.
  intros H directory prefix.
  pose proof (keeps_db_download_single env url file_format quality
                output_template w) as Hdb.
  rewrite H in Hdb. simpl in Hdb.
  unfold download_single in H.
  apply bind_inr_inv in H as (opts & w0 & Hopts & H).
  assert (w0 = w) as ->.
  { destruct (get_ydl_opts _ _ _); unfold lift, raise, ret in Hopts;
      by simplify_eq. }
  apply bind_inr_inv in H as ([] & w1 & Hloop & H).
  destruct (emits_only_retry_loop (λ e, is_db_event e = false) env url opts
              (seq 0 MAX_DOWNLOAD_RETRIES)) with (w := w) as (pre & Ht & Hp);
    [done..|].
  rewrite Hloop in Ht. simpl in Ht.
  unfold find_file, bind, listdir in H. fold directory prefix in H.
  destruct (fs w1 !! directory) as [entries|] eqn:Hd; simpl in H; [|done].
  destruct (find_downloaded directory prefix file_format entries) eqn:Hfind;
    simpl in H; [|done].
  injection H as -> <-. exists pre, entries. simpl.
  by rewrite Ht, app_assoc.
Qed.

(** A file response can only come from a request that passed the parameter
    check and got its workspace. *)
Lemma download_get_success_in_workspace (env : Env) (args : Request) (w : World)
    (path name : string) :
  (download_get env args w).1 = inr (FileAttachment path name, 200) →
  ∃ url fmt tmp,
    args_get args "url" = Some url ∧ url ≠ ""
    ∧ args_get args "format" = Some fmt ∧ fmt ≠ ""
    ∧ env_mkdtemp env (fs w) = inr tmp ∧ fs w !! tmp = None.
Proof.
  unfold download_get.
  destruct (args_get args "url") as [url|]; simpl; [|done].
  destruct (String.eqb url "") eqn:Hu; simpl; [done|].
  destruct (args_get args "format") as [fmt|]; simpl; [|done].
  destruct (String.eqb fmt "") eqn:Hf; simpl; [done|].
  unfold bind at 1, mkdtemp.
  destruct (env_mkdtemp env (fs w)) as [e|tmp] eqn:Htmp; [done|].
  destruct (fs w !! tmp) eqn:Hfresh; [done|].
  intros _. exists url, fmt, tmp.
  by apply String.eqb_neq in Hu, Hf.
Qed.

(** C6: a job that ends with the file response has appended exactly one row
    to the history table, carrying the url, the format and the quality of
    the request; the row is added and committed after the file has been
    found in the listing of the workspace and before the file is sent. *)
Theorem history_recorded_on_success (env : Env) (args : Request) (w : World)
    (path name : string) :
  (download_get env args w).1 = inr (FileAttachment path name, 200) →
  let res := download_get env args w in
  let quality := py_or (args_get args "quality") "best" in
  ∃ url fmt tmp pre entries ts,
    args_get args "url" = Some url
    ∧ args_get args "format" = Some fmt
    ∧ name = "JustPaste." +:+ fmt
    ∧ db res.2 = db w ++ [Row (next_id (db w)) url fmt quality ts]
    ∧ find_downloaded (path_dirname (path_join tmp "dl.%(ext)s"))
        (before_first_dot (path_basename (path_join tmp "dl.%(ext)s")))
        fmt entries = Some path
    ∧ trace res.2
      = trace w ++ EvMkdtemp tmp :: pre
        ++ [ EvListdir (path_dirname (path_join tmp "dl.%(ext)s"));
             EvDbAdd url fmt quality;
             EvDbCommit;
             EvSendFile path name;
             EvRmtree tmp ]
    ∧ Forall (λ e, is_db_event e = false) pre.
Proof.
  intros Hok res quality. subst res.
  destruct (download_get_success_in_workspace _ _ _ _ _ Hok)
    as (url & fmt & tmp & Hurl & Hu & Hfmt & Hf & Htmp & Hfresh).
  rewrite (download_get_in_workspace env args w url fmt tmp) in Hok |- * by done.
  fold quality in Hok |- *. cbv zeta in Hok |- *.
  unfold try_finally in Hok |- *.
  match type of Hok with
  | context [try_except ?b ?h ?w1] =>
      destruct (try_except b h w1) as [r w2] eqn:Hinner
  end.
  destruct (rmtree_ignore_errors env tmp w2) as (Hr & Htr & Hdb & _).
  destruct (rmtree env tmp true w2) as [[e|[]] w3]; simpl in *; [done|].
  subst r. unfold try_except in Hinner.
  match type of Hinner with
  | context [bind ?m ?k ?w1] => destruct (bind m k w1) as [[e|a] wb] eqn:Hbody
  end; [done|].
  injection Hinner as -> ->.
  apply bind_inr_inv in Hbody as (p & wa & Hsingle & Hbody).
  apply bind_inr_inv in Hbody as (s & wc & Hadd & Hbody).
  apply bind_inr_inv in Hbody as ([] & wd & Hcommit & Hsend).
  apply download_single_success in Hsingle
    as (pre & entries & Hta & Hpre & _ & Hfind & Hdba).
  unfold session_add, bind, emit, ret in Hadd. injection Hadd as <- <-.
  unfold session_commit in Hcommit. simpl in Hcommit.
  destruct (env_commit_error env (db wa)); [done|].
  injection Hcommit as <-.
  unfold send_file in Hsend. simpl in Hsend.
  destruct (env_send_file_error env (fs wa) p); [done|].
  injection Hsend as Hp Hname Hw2. subst p name w2.
  simpl in Hdb, Htr, Hdba, Hta.
  exists url, fmt, tmp, pre, entries.
  eexists. split; [done|]. split; [done|]. split; [done|].
  split; [|split; [exact Hfind|split; [|exact Hpre]]].
  - rewrite Hdb, Hdba. reflexivity.
  - rewrite Htr, Hta. by rewrite <- !app_assoc.
Qed.

Lemma history_recorded_on_success_witness :
  (download_get (stub_env stub_engine_ok None) stub_request empty_world).1
  = inr (FileAttachment "/tmp/tmpab12/dl.mp4" "JustPaste.mp4", 200)
  ∧ ∃ r, db (download_get (stub_env stub_engine_ok None) stub_request
               empty_world).2 = [r]
         ∧ rec_url r = "https://example.com/video"
         ∧ rec_file_format r = "mp4"
         ∧ rec_quality r = "best".
Proof.
  assert (Hok : (download_get (stub_env stub_engine_ok None) stub_request
                   empty_world).1
                = inr (FileAttachment "/tmp/tmpab12/dl.mp4" "JustPaste.mp4", 200))
    by (by vm_compute).
  split; [exact Hok|].
  destruct (history_recorded_on_success _ _ _ _ _ Hok)
    as (url & fmt & tmp & pre & entries & ts & Hurl & Hfmt & _ & Hdb & _).
  vm_compute in Hurl, Hfmt. injection Hurl as <-. injection Hfmt as <-.
  eexists. split; [exact Hdb|]. by repeat split.
Defined.

(** ** End-to-end scenarios *)

(** The engine writes [dl.mp4] on its first run: the file is served, one row
    is appended and the workspace is removed. *)
Example scenario_mp4_first_run :
  let res := download_get (stub_env stub_engine_ok None) stub_request empty_world in
  res.1 = inr (FileAttachment "/tmp/tmpab12/dl.mp4" "JustPaste.mp4", 200)
  ∧ db res.2 = [Row 1 "https://example.com/video" "mp4" "best" stub_now]
  ∧ fs res.2 !! stub_tmp = None
  ∧ warnings_of (trace res.2) = [].
Proof. vm_compute. by repeat split. Qed.

(** The engine fails once and then succeeds: the job succeeds and exactly one
    warning has been logged. *)
Example scenario_retry_then_success :
  let res := download_get (stub_env stub_engine_retry None) stub_request empty_world in
  res.1 = inr (FileAttachment "/tmp/tmpab12/dl.mp4" "JustPaste.mp4", 200)
  ∧ warnings_of (trace res.2) = ["Attempt 1 failed: HTTP Error 503"]
  ∧ length (attempts_of (trace res.2)) = 2
  ∧ db res.2 = [Row 1 "https://example.com/video" "mp4" "best" stub_now]
  ∧ fs res.2 !! stub_tmp = None.
Proof. vm_compute. by repeat split. Qed.

(** The engine fails twice: the second failure is reported with status 500,
    nothing is recorded and the workspace is removed. *)
Example scenario_engine_down :
  let res := download_get (stub_env stub_engine_down None) stub_request empty_world in
  res.1 = inr (JsonError "HTTP Error 503", 500)
  ∧ warnings_of (trace res.2)
    = ["Attempt 1 failed: HTTP Error 503"; "Attempt 2 failed: HTTP Error 503"]
  ∧ length (attempts_of (trace res.2)) = 2
  ∧ db res.2 = []
  ∧ fs res.2 !! stub_tmp = None.
Proof. vm_compute. by repeat split. Qed.

(** An unsupported format: the workspace is created and removed, the engine
    is never run and nothing is recorded. *)
Example scenario_unsupported_format :
  let res := download_get (stub_env stub_engine_ok None)
               [("url", "https://example.com/video"); ("format", "gif")]
               empty_world in
  res.1 = inr (JsonError "Unsupported format: gif", 500)
  ∧ attempts_of (trace res.2) = []
  ∧ db res.2 = []
  ∧ fs res.2 !! stub_tmp = None.
Proof. vm_compute. by repeat split. Qed.

(** The same request twice: two rows with distinct keys. *)
Example scenario_same_request_twice :
  let env := stub_env stub_engine_ok None in
  let w1 := (download_get env stub_request empty_world).2 in
  let w2 := (download_get env stub_request w1).2 in
  rec_id <$> db w2 = [1; 2] ∧ fs w2 !! stub_tmp = None.
Proof. vm_compute. by repeat split. Qed.

(** ** Decimal rendering *)

Lemma pretty_N_go_append (x : N) (s : string) :
  pretty_N_go x s = pretty_N_go x "" +:+ s.
Proof.
  revert s. induction (N.lt_wf_0 x) as [x _ IH]. intros s.
  destruct (decide (x = 0)%N) as [->|Hx]; [done|].
  rewrite !(pretty_N_go_step x) by lia.
  assert (Hlt : (x `div` 10 < x)%N) by (apply N.div_lt; lia).
  rewrite (IH _ Hlt (String _ s)), (IH _ Hlt (String _ "")).
  by rewrite append_assoc.
Qed.

Lemma pretty_N_char_digit (n : nat) :
  pretty_N_char (N.of_nat (n mod 10)) = digit n.
Proof.
  unfold digit. pose proof (Nat.mod_upper_bound n 10 ltac:(done)) as H.
  destruct (n mod 10) as [|[|[|[|[|[|[|[|[|[|k]]]]]]]]]]; try done. lia.
Qed.

Lemma pretty_nat_small (n : nat) : n < 10 → pretty n = String (digit n) "".
Proof.
  intros H. rewrite <- pretty_N_char_digit, Nat.mod_small by done.
  destruct n as [|[|[|[|[|[|[|[|[|[|k]]]]]]]]]]; try done. lia.
Qed.

Lemma pretty_nat_step (n : nat) :
  10 ≤ n → pretty n = pretty (n / 10) +:+ String (digit n) "".
Proof.
  intros H. rewrite <- pretty_N_char_digit.
  unfold pretty, pretty_nat, pretty, pretty_N.
  assert (1 ≤ n / 10) by (apply Nat.div_le_lower_bound; lia).
  rewrite !decide_False by lia.
  rewrite pretty_N_go_step by lia.
  rewrite pretty_N_go_append.
  by rewrite Nat2N.inj_div, Nat2N.inj_mod.
Qed.

Lemma zeros_snoc (n : nat) : zeros (S n) = zeros n +:+ "0".
Proof.
  induction n as [|n IH]; [done|]. simpl in *. by rewrite append_cons, <- IH.
Qed.

(** Within its width, ["%0<width>d"] prints exactly [width] digits. *)
Lemma fmt_d_digits (w n : nat) : n < 10 ^ S w → fmt_d (S w) n = digits (S w) n.
Proof.
  revert n. induction w as [|w IH]; intros n Hn.
  - unfold fmt_d. rewrite pretty_nat_small by (simpl in Hn; lia). done.
  - change (digits (S (S w)) n)
      with (digits (S w) (n / 10) +:+ String (digit n) "").
    rewrite <- IH.
    2:{ apply Nat.Div0.div_lt_upper_bound. by rewrite <- Nat.pow_succ_r'. }
    unfold fmt_d. destruct (decide (n < 10)) as [Hs|Hs].
    + rewrite Nat.div_small by done. rewrite pretty_nat_small by done.
      change (pretty 0) with "0". simpl String.length.
      replace (S (S w) - 1) with (S w) by lia. replace (S w - 1) with w by lia.
      by rewrite zeros_snoc.
    + rewrite (pretty_nat_step n) by lia.
      rewrite append_length. simpl String.length.
      replace (S (S w) - (String.length (pretty (n / 10)) + 1))
        with (S w - String.length (pretty (n / 10))) by lia.
      by rewrite append_assoc.
Qed.

Lemma fmt_d_2_digits (n : nat) : n < 100 → fmt_d 2 n = digits 2 n.
Proof. intros H. apply fmt_d_digits. by change (10 ^ 2) with 100. Qed.

(** [isoformat] of a valid [datetime] is in the extended ISO-8601 form. *)
Lemma isoformat_iso8601 (d : datetime) :
  valid_datetime d → isoformat d = iso8601 d.
Proof.
  intros ([_ Hy] & [_ Hm] & [_ Hd] & Hh & Hmi & Hs & Hus).
  unfold isoformat, iso8601.
  rewrite (fmt_d_digits 3) by done.
  rewrite !fmt_d_2_digits by lia.
  destruct (Nat.eqb (dt_microsecond d) 0); [done|].
  by rewrite (fmt_d_digits 5).
Qed.

(** ** The history query *)

Lemma lex_leb_total (a b : list nat) : lex_leb a b = false → lex_leb b a = true.
Proof.
  revert b. induction a as [|x a IH]; intros [|y b]; simpl; try done.
  destruct (Nat.ltb_spec x y), (Nat.ltb_spec y x); try done; try lia.
  apply IH.
Qed.

Lemma lex_leb_trans (a b c : list nat) :
  lex_leb a b = true → lex_leb b c = true → lex_leb a c = true.
Proof.
  revert b c. induction a as [|x a IH]; intros [|y b] [|z c]; simpl; try done.
  destruct (Nat.ltb_spec x y), (Nat.ltb_spec y x),
    (Nat.ltb_spec y z), (Nat.ltb_spec z y),
    (Nat.ltb_spec x z), (Nat.ltb_spec z x); try done; try lia.
  apply IH.
Qed.

Lemma newer_eq_trans (r1 r2 r3 : DownloadHistory) :
  newer_eq r1 r2 → newer_eq r2 r3 → newer_eq r1 r3.
Proof. unfold newer_eq, dt_leb. intros H1 H2. by eapply lex_leb_trans. Qed.

Lemma insert_desc_perm (r : DownloadHistory) (l : list DownloadHistory) :
  insert_desc r l ≡ₚ r :: l.
Proof.
  induction l as [|r' l IH]; simpl; [done|].
  destruct (dt_leb _ _); [done|]. rewrite IH. apply Permutation_swap.
Qed.

Lemma insert_desc_sorted (r : DownloadHistory) (l : list DownloadHistory) :
  StronglySorted newer_eq l → StronglySorted newer_eq (insert_desc r l).
Proof.
  induction 1 as [|r' l Hs IH Hall]; simpl.
  - by repeat constructor.
  - destruct (dt_leb (rec_timestamp r') (rec_timestamp r)) eqn:Hle.
    + constructor; [by constructor|]. constructor; [done|].
      eapply Forall_impl; [exact Hall|]. intros x Hx.
      by apply (newer_eq_trans r r' x).
    + constructor; [done|]. rewrite insert_desc_perm.
      constructor; [|done]. by apply lex_leb_total.
Qed.

Lemma order_by_timestamp_desc_perm (rows : list DownloadHistory) :
  order_by_timestamp_desc rows ≡ₚ rows.
Proof.
  induction rows as [|r rows IH]; simpl; [done|].
  by rewrite insert_desc_perm, IH.
Qed.

Lemma order_by_timestamp_desc_sorted (rows : list DownloadHistory) :
  StronglySorted newer_eq (order_by_timestamp_desc rows).
Proof.
  induction rows as [|r rows IH]; simpl; [constructor|].
  by apply insert_desc_sorted.
Qed.

Lemma as_dict_timestamp (r : DownloadHistory) :
  as_dict r !! "timestamp" = Some (PyStr (isoformat (rec_timestamp r) +:+ "Z")).
Proof. unfold as_dict. simpl. by simplify_map_eq. Qed.

(** C8: the history query returns every stored row, newest first (each row
    is at least as recent as all the rows after it), and the timestamp field
    of each returned record is [isoformat()] of the row's timestamp followed
    by [Z], which for a valid [datetime] is the extended ISO-8601 form
    [YYYY-MM-DDThh:mm:ss] with an optional fraction [.ffffff]. *)
Theorem history_newest_first (w : World) :
  ∃ recs,
    history w = (inr (JsonList (as_dict <$> recs), 200), w)
    ∧ recs ≡ₚ db w
    ∧ StronglySorted newer_eq recs
    ∧ Forall (λ r, as_dict r !! "timestamp"
                   = Some (PyStr (isoformat (rec_timestamp r) +:+ "Z"))
                   ∧ (valid_datetime (rec_timestamp r) →
                      isoformat (rec_timestamp r) = iso8601 (rec_timestamp r)))
        recs.
Proof.
  exists (order_by_timestamp_desc (db w)).
  split; [done|]. split; [apply order_by_timestamp_desc_perm|].
  split; [apply order_by_timestamp_desc_sorted|].
  apply Forall_forall. intros r _.
  split; [apply as_dict_timestamp|apply isoformat_iso8601].
Qed.

Example iso8601_seconds :
  iso8601 (DateTime 2024 1 2 3 4 5 0) = "2024-01-02T03:04:05".
Proof. by vm_compute. Qed.

Example isoformat_seconds :
  isoformat (DateTime 2024 1 2 3 4 5 0) +:+ "Z" = "2024-01-02T03:04:05Z".
Proof. by vm_compute. Qed.

Example isoformat_microseconds :
  isoformat (DateTime 2024 11 30 23 59 7 120) +:+ "Z"
  = "2024-11-30T23:59:07.000120Z".
Proof. by vm_compute. Qed.

Example history_two_rows :
  let old := Row 1 "https://example.com/a" "mp4" "best" (DateTime 2024 1 2 3 4 5 0) in
  let new := Row 2 "https://example.com/b" "mp3" "best" (DateTime 2024 1 2 3 4 6 0) in
  (history (MkWorld ∅ [old; new] [])).1 = inr (JsonList [as_dict new; as_dict old], 200).
Proof. by vm_compute. Qed.

(** * Beyond the claims *)

(** ** get_ydl_opts: which formats, which options *)

Lemma get_ydl_opts_inr_supported
    (file_format quality output_template : string) (o : pydict) :
  get_ydl_opts file_format quality output_template = inr o →
  file_format ∈ supported_formats.
Proof.
  intros Ho.
  destruct (decide (file_format ∈ supported_formats)) as [|Hn]; [done|].
  by rewrite (get_ydl_opts_unsupported _ _ _ Hn) in Ho.
Qed.

(** X1: [get_ydl_opts] returns a configuration exactly for the four supported
    formats. *)
Theorem get_ydl_opts_supported_iff (file_format quality output_template : string) :
  (∃ o, get_ydl_opts file_format quality output_template = inr o)
  ↔ file_format ∈ supported_formats.
Proof.
  split.
  - intros [o Ho]. by eapply get_ydl_opts_inr_supported.
  - unfold supported_formats. intros H.
    repeat (apply elem_of_cons in H as [->|H]); [..|by apply elem_of_nil in H];
      by eexists.
Qed.

(** X2: the two image formats get the same configuration, and it names no
    format at all: the engine is never told which image type was asked. *)
Theorem get_ydl_opts_image_formats_agree (quality quality' output_template : string) :
  get_ydl_opts "jpg" quality output_template
  = get_ydl_opts "png" quality' output_template
  ∧ ∃ o, get_ydl_opts "png" quality' output_template = inr o
         ∧ o !! "format" = None
         ∧ o !! "merge_output_format" = None
         ∧ o !! "postprocessors" = None
         ∧ o !! "skip_download" = Some (PyBool true)
         ∧ o !! "write_thumbnail" = Some (PyBool true).
Proof.
  split; [reflexivity|]. eexists. split; [reflexivity|]. by vm_compute.
Qed.

(** X3: every configuration hands the caller's output template to the engine
    and keeps the engine's errors raised ([ignoreerrors] is false), which is
    what the retry loop relies on. *)
Theorem get_ydl_opts_common_options
    (file_format quality output_template : string) (o : pydict) :
  get_ydl_opts file_format quality output_template = inr o →
  o !! "outtmpl" = Some (PyStr output_template)
  ∧ o !! "ignoreerrors" = Some (PyBool false)
  ∧ o !! "quiet" = Some (PyBool true)
  ∧ o !! "nocheckcertificate" = Some (PyBool true).
Proof.
  intros Ho.
  pose proof (get_ydl_opts_inr_supported _ _ _ _ Ho) as Hs.
  unfold supported_formats in Hs.
  repeat (apply elem_of_cons in Hs as [->|Hs]); [..|by apply elem_of_nil in Hs];
    injection Ho as <-; by vm_compute.
Qed.

Lemma get_ydl_opts_common_options_witness :
  ∃ o, get_ydl_opts "mp3" "best" "/tmp/ws/dl.%(ext)s" = inr o
       ∧ o !! "outtmpl" = Some (PyStr "/tmp/ws/dl.%(ext)s")
       ∧ o !! "ignoreerrors" = Some (PyBool false)
       ∧ o !! "quiet" = Some (PyBool true)
       ∧ o !! "nocheckcertificate" = Some (PyBool true).
Proof.
  eexists. split; [reflexivity|].
  exact (get_ydl_opts_common_options "mp3" "best" "/tmp/ws/dl.%(ext)s" _ eq_refl).
Defined.

(** ** The search of download_single, as download_get sets it up *)

Lemma rsplit_slash_no_slash (b : string) :
  has_slash b = false → rsplit_slash b = ("", b).
Proof.
  induction b as [|c b IH]; [done|]. simpl.
  intros [Hc Hb]%orb_false_iff. by rewrite (IH Hb), Hc.
Qed.

Lemma rsplit_slash_append (a b : string) :
  has_slash b = false →
  rsplit_slash (a +:+ String "/" b) = (a +:+ "/", b).
Proof.
  intros Hb. induction a as [|c a IH].
  - rewrite !append_nil_l. simpl. by rewrite (rsplit_slash_no_slash b Hb).
  - rewrite !append_cons. simpl. rewrite IH.
    destruct a; by rewrite ?append_nil_l, ?append_cons.
Qed.

Lemma rstrip_slash_append_slash (a : string) :
  rstrip_slash (a +:+ "/") = rstrip_slash a.
Proof.
  induction a as [|c a IH]; [done|]. rewrite append_cons. simpl. by rewrite IH.
Qed.

Lemma rstrip_slash_id (a : string) :
  endswith a "/" = false → rstrip_slash a = a.
Proof.
  intros H.
  assert (Hn : ∀ q, a ≠ q +:+ "/").
  { intros q ->. by rewrite (proj2 (endswith_spec _ _)) in H by eauto. }
  clear H. induction a as [|c a IH]; [done|]. simpl.
  destruct a as [|c' a].
  - simpl. destruct (Ascii.eqb c "/") eqn:Hc; [|done].
    apply Ascii.eqb_eq in Hc as ->. by destruct (Hn "").
  - rewrite IH; [done|]. intros q Hq. apply (Hn (String c q)).
    by rewrite append_cons, <- Hq.
Qed.

Lemma startswith_slash_no_slash (b : string) :
  has_slash b = false → startswith b "/" = false.
Proof.
  destruct b as [|c b]; [done|]. simpl.
  intros [-> _]%orb_false_iff. done.
Qed.

(** [basename(join(a, b))] is [b] when [b] has no slash. *)
Lemma path_basename_join (a b : string) :
  has_slash b = false → path_basename (path_join a b) = b.
Proof.
  intros Hb. unfold path_basename, path_join.
  rewrite (startswith_slash_no_slash b Hb).
  destruct (String.eqb a "") eqn:Ha; simpl.
  { apply String.eqb_eq in Ha as ->.
    by rewrite append_nil_l, (rsplit_slash_no_slash b Hb). }
  destruct (endswith a "/") eqn:He.
  - apply endswith_spec in He as [q ->]. rewrite append_assoc.
    change ("/" +:+ b) with (String "/" b).
    by rewrite (rsplit_slash_append q b Hb).
  - change ("/" +:+ b) with (String "/" b).
    by rewrite (rsplit_slash_append a b Hb).
Qed.

(** [dirname(join(a, b))] is [a] when [a] has no trailing slash and [b] has
    no slash. *)
Lemma path_dirname_join (a b : string) :
  endswith a "/" = false → has_slash b = false →
  path_dirname (path_join a b) = a.
Proof.
  intros Ha Hb. unfold path_dirname, path_join.
  rewrite (startswith_slash_no_slash b Hb), Ha.
  destruct (String.eqb a "") eqn:Hz; simpl.
  { apply String.eqb_eq in Hz as ->.
    by rewrite append_nil_l, (rsplit_slash_no_slash b Hb). }
  change ("/" +:+ b) with (String "/" b).
  rewrite (rsplit_slash_append a b Hb). simpl.
  rewrite rstrip_slash_append_slash, (rstrip_slash_id a Ha).
  destruct a; [done|done].
Qed.

(** X4: with the template [download_get] builds from the path [mkdtemp]
    returned (a path without a trailing slash), [download_single] searches
    the workspace itself, for names that start with [dl]. *)
Theorem download_get_template_search (tmp : string) :
  endswith tmp "/" = false →
  path_dirname (path_join tmp "dl.%(ext)s") = tmp
  ∧ before_first_dot (path_basename (path_join tmp "dl.%(ext)s")) = "dl".
Proof.
  intros H. split.
  - by apply path_dirname_join.
  - by rewrite path_basename_join.
Qed.

Lemma download_get_template_search_witness :
  path_dirname (path_join "/tmp/tmpab12" "dl.%(ext)s") = "/tmp/tmpab12"
  ∧ before_first_dot (path_basename (path_join "/tmp/tmpab12" "dl.%(ext)s"))
    = "dl".
Proof. exact (download_get_template_search "/tmp/tmpab12" eq_refl). Defined.

(** X5: a name made of the prefix, anything, and the requested format in any
    letter case passes the test of the search loop. *)
Theorem is_download_any_case_extension (prefix file_format middle e : string) :
  lower e = file_format →
  is_download prefix file_format (prefix +:+ middle +:+ e) = true.
Proof.
  intros <-. apply is_download_spec. split; [by eexists|].
  exists (lower prefix +:+ lower middle).
  by rewrite !lower_append, append_assoc.
Qed.

Lemma is_download_any_case_extension_witness :
  is_download "dl" "mp4" ("dl" +:+ "." +:+ "MP4") = true.
Proof. exact (is_download_any_case_extension "dl" "mp4" "." "MP4" eq_refl). Defined.

(** ** download_get: the ways out *)

(** The final [rmtree] keeps the outcome of the [try] statement, adds its one
    event and leaves the history table alone. *)
Lemma try_finally_rmtree_outcome {A} (body : M A) (env : Env) (tmp : string)
    (w : World) :
  (try_finally body (rmtree env tmp true) w).1 = (body w).1
  ∧ db (try_finally body (rmtree env tmp true) w).2 = db (body w).2
  ∧ trace (try_finally body (rmtree env tmp true) w).2
    = trace (body w).2 ++ [EvRmtree tmp].
Proof.
  unfold try_finally. destruct (body w) as [r w1]. simpl.
  destruct (rmtree_ignore_errors env tmp w1) as (Hr & Htr & Hdb & _).
  by destruct (rmtree env tmp true w1) as [[e|[]] w2]; simpl in *.
Qed.

(** X6: [mkdtemp] is called outside the [try] statement: its error leaves the
    handler as it is, and nothing else has happened. *)
Theorem download_get_mkdtemp_failure (env : Env) (args : Request) (w : World)
    (url fmt : string) (e : exn) :
  args_get args "url" = Some url → url ≠ "" →
  args_get args "format" = Some fmt → fmt ≠ "" →
  env_mkdtemp env (fs w) = inl e →
  download_get env args w = (inl e, w).
Proof.
  intros Hurl Hu Hfmt Hf Htmp. unfold download_get.
  rewrite Hurl, Hfmt. simpl.
  apply String.eqb_neq in Hu, Hf. rewrite Hu, Hf. simpl.
  unfold bind at 1, mkdtemp. by rewrite Htmp.
Qed.

Lemma download_get_mkdtemp_failure_witness :
  download_get
    (MkEnv (λ _, inl (Exn OSError "[Errno 28] No space left on device"))
           stub_engine_ok (λ _, stub_now) (λ _, None) (λ _ _, None)
           (λ _ _, None))
    stub_request empty_world
  = (inl (Exn OSError "[Errno 28] No space left on device"), empty_world).
Proof.
  apply (download_get_mkdtemp_failure _ stub_request empty_world
           "https://example.com/video" "mp4"); by vm_compute.
Defined.

(** X7: whatever [download_single] raises (an unsupported format, the second
    failure of the engine, a file that is not found) is answered with status
    500 and the text of the exception; no row is added, one error is logged
    and the workspace removal follows. *)
Theorem download_get_download_failure (env : Env) (args : Request) (w w2 : World)
    (url fmt tmp : string) (e : exn) :
  args_get args "url" = Some url → url ≠ "" →
  args_get args "format" = Some fmt → fmt ≠ "" →
  env_mkdtemp env (fs w) = inr tmp → fs w !! tmp = None →
  download_single env url fmt (py_or (args_get args "quality") "best")
    (path_join tmp "dl.%(ext)s") (in_workspace w tmp) = (inl e, w2) →
  (download_get env args w).1 = inr (JsonError (exn_msg e), 500)
  ∧ db (download_get env args w).2 = db w
  ∧ trace (download_get env args w).2
    = trace w2 ++ [EvLog ERROR "Download error"; EvRmtree tmp].
Proof.
  intros Hurl Hu Hfmt Hf Htmp Hfresh Hs.
  rewrite (download_get_in_workspace env args w url fmt tmp) by done.
  pose proof (keeps_db_download_single env url fmt
                (py_or (args_get args "quality") "best")
                (path_join tmp "dl.%(ext)s") (in_workspace w tmp)) as Hdb.
  rewrite Hs in Hdb. simpl in Hdb.
  match goal with
  | |- context [try_finally ?b _ ?w1] =>
      destruct (try_finally_rmtree_outcome b env tmp w1) as (H1 & H2 & H3)
  end.
  rewrite H1, H2, H3. unfold try_except, bind. cbv zeta.
  unfold in_workspace in Hs. rewrite Hs. simpl.
  by rewrite <- app_assoc.
Qed.

Lemma download_get_download_failure_witness :
  (download_get (stub_env stub_engine_down None) stub_request empty_world).1
  = inr (JsonError "HTTP Error 503", 500)
  ∧ db (download_get (stub_env stub_engine_down None) stub_request
          empty_world).2 = [].
Proof.
  refine (let H := download_get_download_failure
                     (stub_env stub_engine_down None) stub_request empty_world
                     (download_single (stub_env stub_engine_down None)
                        "https://example.com/video" "mp4" "best"
                        (path_join stub_tmp "dl.%(ext)s")
                        (in_workspace empty_world stub_tmp)).2
                     "https://example.com/video" "mp4" stub_tmp
                     (Exn DownloadError "HTTP Error 503") _ _ _ _ _ _ _ in
          conj (proj1 H) (proj1 (proj2 H))); by vm_compute.
Defined.

(** X8: an unsupported format is not rejected by the parameter check: the
    workspace is created, the request is answered with status 500 (not 400)
    and the text [Unsupported format: ...], the engine is never run, nothing
    is recorded and the workspace removal follows. *)
Theorem download_get_unsupported_format (env : Env) (args : Request) (w : World)
    (url fmt tmp : string) :
  args_get args "url" = Some url → url ≠ "" →
  args_get args "format" = Some fmt → fmt ≠ "" →
  env_mkdtemp env (fs w) = inr tmp → fs w !! tmp = None →
  fmt ∉ supported_formats →
  (download_get env args w).1
  = inr (JsonError ("Unsupported format: " +:+ fmt), 500)
  ∧ db (download_get env args w).2 = db w
  ∧ trace (download_get env args w).2
    = trace w ++ [EvMkdtemp tmp; EvLog ERROR "Download error"; EvRmtree tmp].
Proof.
  intros Hurl Hu Hfmt Hf Htmp Hfresh Hn.
  rewrite (download_get_in_workspace env args w url fmt tmp) by done.
  match goal with
  | |- context [try_finally ?b _ ?w1] =>
      destruct (try_finally_rmtree_outcome b env tmp w1) as (H1 & H2 & H3)
  end.
  rewrite H1, H2, H3. unfold try_except, bind at 1. cbv zeta.
  unfold download_single, bind at 1.
  rewrite (get_ydl_opts_unsupported _ _ _ Hn). simpl.
  by rewrite <- !app_assoc.
Qed.

Lemma download_get_unsupported_format_witness :
  (download_get (stub_env stub_engine_ok None)
     [("url", "https://example.com/video"); ("format", "gif")] empty_world).1
  = inr (JsonError ("Unsupported format: " +:+ "gif"), 500).
Proof.
  refine (proj1 (download_get_unsupported_format (stub_env stub_engine_ok None)
                   [("url", "https://example.com/video"); ("format", "gif")]
                   empty_world "https://example.com/video" "gif" stub_tmp
                   _ _ _ _ _ _ _)); try by vm_compute.
  unfold supported_formats. rewrite !not_elem_of_cons.
  repeat split; [done..|apply not_elem_of_nil].
Defined.

(** X9: when the commit fails, the request is answered with status 500 and the
    text of the error, the history table is unchanged and the file is never
    sent. *)
Theorem download_get_commit_failure (env : Env) (args : Request) (w w2 : World)
    (url fmt tmp p : string) (e : exn) :
  args_get args "url" = Some url → url ≠ "" →
  args_get args "format" = Some fmt → fmt ≠ "" →
  env_mkdtemp env (fs w) = inr tmp → fs w !! tmp = None →
  download_single env url fmt (py_or (args_get args "quality") "best")
    (path_join tmp "dl.%(ext)s") (in_workspace w tmp) = (inr p, w2) →
  env_commit_error env (db w) = Some e →
  (download_get env args w).1 = inr (JsonError (exn_msg e), 500)
  ∧ db (download_get env args w).2 = db w
  ∧ trace (download_get env args w).2
    = trace w2
      ++ [ EvDbAdd url fmt (py_or (args_get args "quality") "best");
           EvDbCommit; EvLog ERROR "Download error"; EvRmtree tmp ].
Proof.
  intros Hurl Hu Hfmt Hf Htmp Hfresh Hs Hc.
  rewrite (download_get_in_workspace env args w url fmt tmp) by done.
  pose proof (keeps_db_download_single env url fmt
                (py_or (args_get args "quality") "best")
                (path_join tmp "dl.%(ext)s") (in_workspace w tmp)) as Hdb.
  rewrite Hs in Hdb. simpl in Hdb.
  match goal with
  | |- context [try_finally ?b _ ?w1] =>
      destruct (try_finally_rmtree_outcome b env tmp w1) as (H1 & H2 & H3)
  end.
  rewrite H1, H2, H3.
  unfold try_except, bind, session_add, session_commit, emit, ret. cbv zeta.
  unfold in_workspace in Hs. rewrite Hs. simpl. rewrite Hdb, Hc. simpl.
  by rewrite <- !app_assoc.
Qed.

Lemma download_get_commit_failure_witness :
  (download_get
     (MkEnv (λ _, inr stub_tmp) stub_engine_ok (λ _, stub_now)
            (λ _, Some (Exn SQLAlchemyError "database is locked"))
            (λ _ _, None) (λ _ _, None))
     stub_request empty_world).1
  = inr (JsonError "database is locked", 500).
Proof.
  refine (proj1 (download_get_commit_failure
                   (MkEnv (λ _, inr stub_tmp) stub_engine_ok (λ _, stub_now)
                      (λ _, Some (Exn SQLAlchemyError "database is locked"))
                      (λ _ _, None) (λ _ _, None))
                   stub_request empty_world
                   (download_single
                      (MkEnv (λ _, inr stub_tmp) stub_engine_ok (λ _, stub_now)
                         (λ _, Some (Exn SQLAlchemyError "database is locked"))
                         (λ _ _, None) (λ _ _, None))
                      "https://example.com/video" "mp4" "best"
                      (path_join stub_tmp "dl.%(ext)s")
                      (in_workspace empty_world stub_tmp)).2
                   "https://example.com/video" "mp4" stub_tmp
                   "/tmp/tmpab12/dl.mp4"
                   (Exn SQLAlchemyError "database is locked")
                   _ _ _ _ _ _ _ _)); by vm_compute.
Defined.

(** X10: the row is committed before the file is sent: when [send_file] fails,
    the request is answered with status 500 and yet the history table has
    the new row. *)
Theorem download_get_send_file_failure (env : Env) (args : Request) (w w2 : World)
    (url fmt tmp p : string) (e : exn) :
  args_get args "url" = Some url → url ≠ "" →
  args_get args "format" = Some fmt → fmt ≠ "" →
  env_mkdtemp env (fs w) = inr tmp → fs w !! tmp = None →
  download_single env url fmt (py_or (args_get args "quality") "best")
    (path_join tmp "dl.%(ext)s") (in_workspace w tmp) = (inr p, w2) →
  env_commit_error env (db w) = None →
  env_send_file_error env (fs w2) p = Some e →
  (download_get env args w).1 = inr (JsonError (exn_msg e), 500)
  ∧ db (download_get env args w).2
    = db w ++ [Row (next_id (db w)) url fmt
                 (py_or (args_get args "quality") "best")
                 (env_utcnow env (S (length (trace w2))))]
  ∧ trace (download_get env args w).2
    = trace w2
      ++ [ EvDbAdd url fmt (py_or (args_get args "quality") "best");
           EvDbCommit; EvSendFile p ("JustPaste." +:+ fmt);
           EvLog ERROR "Download error"; EvRmtree tmp ].
Proof.
  intros Hurl Hu Hfmt Hf Htmp Hfresh Hs Hc Hsend.
  rewrite (download_get_in_workspace env args w url fmt tmp) by done.
  pose proof (keeps_db_download_single env url fmt
                (py_or (args_get args "quality") "best")
                (path_join tmp "dl.%(ext)s") (in_workspace w tmp)) as Hdb.
  rewrite Hs in Hdb. simpl in Hdb.
  match goal with
  | |- context [try_finally ?b _ ?w1] =>
      destruct (try_finally_rmtree_outcome b env tmp w1) as (H1 & H2 & H3)
  end.
  rewrite H1, H2, H3.
  unfold try_except, bind, session_add, session_commit, send_file, emit, ret.
  cbv zeta. unfold in_workspace in Hs. rewrite Hs. simpl.
  rewrite Hdb, Hc. simpl. rewrite Hsend. simpl.
  rewrite length_app, Nat.add_1_r. by rewrite <- !app_assoc.
Qed.

Lemma download_get_send_file_failure_witness :
  (download_get
     (MkEnv (λ _, inr stub_tmp) stub_engine_ok (λ _, stub_now) (λ _, None)
            (λ _ _, Some (Exn OSError "[Errno 5] Input/output error"))
            (λ _ _, None))
     stub_request empty_world).1
  = inr (JsonError "[Errno 5] Input/output error", 500)
  ∧ db (download_get
          (MkEnv (λ _, inr stub_tmp) stub_engine_ok (λ _, stub_now) (λ _, None)
             (λ _ _, Some (Exn OSError "[Errno 5] Input/output error"))
             (λ _ _, None))
          stub_request empty_world).2
    = [] ++ [Row (next_id []) "https://example.com/video" "mp4" "best" stub_now].
Proof.
  refine (let H := download_get_send_file_failure
                     (MkEnv (λ _, inr stub_tmp) stub_engine_ok (λ _, stub_now)
                        (λ _, None)
                        (λ _ _, Some (Exn OSError "[Errno 5] Input/output error"))
                        (λ _ _, None))
                     stub_request empty_world
                     (download_single
                        (MkEnv (λ _, inr stub_tmp) stub_engine_ok
                           (λ _, stub_now) (λ _, None)
                           (λ _ _, Some (Exn OSError "[Errno 5] Input/output error"))
                           (λ _ _, None))
                        "https://example.com/video" "mp4" "best"
                        (path_join stub_tmp "dl.%(ext)s")
                        (in_workspace empty_world stub_tmp)).2
                     "https://example.com/video" "mp4" stub_tmp
                     "/tmp/tmpab12/dl.mp4"
                     (Exn OSError "[Errno 5] Input/output error")
                     _ _ _ _ _ _ _ _ _ in
          conj (proj1 H) (proj1 (proj2 H))); by vm_compute.
Defined.




(** ** How often the engine runs *)

Lemma attempts_of_app (a b : list event) :
  attempts_of (a ++ b) = attempts_of a ++ attempts_of b.
Proof. apply omap_app. Qed.

Lemma warnings_of_app (a b : list event) :
  warnings_of (a ++ b) = warnings_of a ++ warnings_of b.
Proof. apply omap_app. Qed.

Lemma quiet_events (evs : list event) :
  Forall quiet evs → attempts_of evs = [] ∧ warnings_of evs = [].
Proof.
  induction 1 as [|e evs [He Hw] _ [IH1 IH2]]; [done|].
  unfold attempts_of, warnings_of in *.
  destruct e as [| | [] | | | | |]; simplify_eq/=; by rewrite ?IH1, ?IH2.
Qed.

Lemma attempts_of_attempt_events (url : string) (opts : pydict) (k : nat)
    (atts : list (option exn)) :
  attempts_of (attempt_events url opts k atts) = atts
  ∧ length (warnings_of (attempt_events url opts k atts)) ≤ length atts.
Proof.
  revert k. induction atts as [|r atts IH]; intros k; [done|].
  destruct (IH (S k)) as [IH1 IH2].
  destruct r as [e|].
  - change (attempt_events url opts k (Some e :: atts))
      with ([EvExtractInfo url opts (Some e);
             EvLog WARNING (attempt_warning k e)]
            ++ attempt_events url opts (S k) atts).
    rewrite attempts_of_app, warnings_of_app, IH1, length_app.
    split; [done|]. simpl. lia.
  - change (attempt_events url opts k (None :: atts))
      with ([EvExtractInfo url opts None]
            ++ attempt_events url opts (S k) atts).
    rewrite attempts_of_app, warnings_of_app, IH1, length_app.
    split; [done|]. simpl. lia.
Qed.

Lemma retry_loop_events (env : Env) (url : string) (opts : pydict) (w : World) :
  ∃ atts,
    trace (retry_loop env url opts (seq 0 MAX_DOWNLOAD_RETRIES) w).2
    = trace w ++ attempt_events url opts 1 atts
    ∧ 1 ≤ length atts ≤ MAX_DOWNLOAD_RETRIES.
Proof.
  change (seq 0 MAX_DOWNLOAD_RETRIES) with [0; 1].
  unfold retry_loop, extract_info, bind, emit, raise, ret, MAX_DOWNLOAD_RETRIES.
  destruct (env_extract_info env _ url opts (fs w)) as [fs1 [e1|]];
    cbn [fst snd fs db trace Nat.eqb Nat.sub].
  - destruct (env_extract_info env _ url opts fs1) as [fs2 [e2|]];
      cbn [fst snd fs db trace].
    + exists [Some e1; Some e2]. rewrite <- !app_assoc. split; [done|]. simpl; lia.
    + exists [Some e1; None]. rewrite <- !app_assoc. split; [done|]. simpl; lia.
  - exists [None]. split; [done|]. simpl; lia.
Qed.

Lemma engine_bounded_retry_loop (env : Env) (url : string) (opts : pydict) :
  engine_bounded (retry_loop env url opts (seq 0 MAX_DOWNLOAD_RETRIES)).
Proof.
  intros w. destruct (retry_loop_events env url opts w) as (atts & Ht & Hl).
  destruct (attempts_of_attempt_events url opts 1 atts) as [Ha Hw].
  eexists. split; [exact Ht|]. rewrite Ha. split; [lia|done].
Qed.

Lemma engine_bounded_of_quiet {A} (m : M A) :
  emits_only quiet m → engine_bounded m.
Proof.
  intros Hm w. destruct (Hm w) as (evs & Ht & Hq).
  destruct (quiet_events evs Hq) as [Ha Hw].
  exists evs. rewrite Ha, Hw. split; [done|]. simpl. lia.
Qed.

Lemma engine_bounded_then_quiet {A B} (m : M A) (k : A → M B) :
  engine_bounded m → (∀ a, emits_only quiet (k a)) → engine_bounded (bind m k).
Proof.
  intros Hm Hk w. unfold bind. destruct (Hm w) as (evs & Ht & Ha & Hw).
  destruct (m w) as [[e|a] w1]; simpl in *; [by exists evs|].
  destruct (Hk a w1) as (evs' & Ht' & Hq).
  destruct (quiet_events evs' Hq) as [Ha' Hw'].
  exists (evs ++ evs'). rewrite Ht', Ht, app_assoc.
  rewrite attempts_of_app, warnings_of_app, Ha', Hw', !app_nil_r. done.
Qed.

Lemma quiet_then_engine_bounded {A B} (m : M A) (k : A → M B) :
  emits_only quiet m → (∀ a, engine_bounded (k a)) → engine_bounded (bind m k).
Proof.
  intros Hm Hk w. unfold bind. destruct (Hm w) as (evs & Ht & Hq).
  destruct (quiet_events evs Hq) as [Ha Hw].
  destruct (m w) as [[e|a] w1]; simpl in *.
  { exists evs. rewrite Ha, Hw. split; [done|]. simpl. lia. }
  destruct (Hk a w1) as (evs' & Ht' & Ha' & Hw').
  exists (evs ++ evs'). rewrite Ht', Ht, app_assoc.
  rewrite attempts_of_app, warnings_of_app, Ha, Hw. done.
Qed.

Lemma engine_bounded_try_except {A} (body : M A) (handler : exn → M A) :
  engine_bounded body → (∀ e, emits_only quiet (handler e)) →
  engine_bounded (try_except body handler).
Proof.
  intros Hm Hk w. unfold try_except. destruct (Hm w) as (evs & Ht & Ha & Hw).
  destruct (body w) as [[e|a] w1]; simpl in *; [|by exists evs].
  destruct (Hk e w1) as (evs' & Ht' & Hq).
  destruct (quiet_events evs' Hq) as [Ha' Hw'].
  exists (evs ++ evs'). rewrite Ht', Ht, app_assoc.
  rewrite attempts_of_app, warnings_of_app, Ha', Hw', !app_nil_r. done.
Qed.

Lemma engine_bounded_try_finally_rmtree {A} (body : M A) (env : Env)
    (tmp : string) :
  engine_bounded body → engine_bounded (try_finally body (rmtree env tmp true)).
Proof.
  intros Hm w. destruct (Hm w) as (evs & Ht & Ha & Hw).
  destruct (try_finally_rmtree_outcome body env tmp w) as (_ & _ & H3).
  exists (evs ++ [EvRmtree tmp]). rewrite H3, Ht, app_assoc.
  rewrite attempts_of_app, warnings_of_app, !app_nil_r. done.
Qed.

(** X12: whatever the request, one run of the handler runs the engine at most
    [MAX_DOWNLOAD_RETRIES] times and logs at most one warning per run of the
    engine. *)
Theorem download_get_engine_bounded (env : Env) (args : Request) (w : World) :
  ∃ evs,
    trace (download_get env args w).2 = trace w ++ evs
    ∧ length (attempts_of evs) ≤ MAX_DOWNLOAD_RETRIES
    ∧ length (warnings_of evs) ≤ length (attempts_of evs).
Proof.
  revert w. change (engine_bounded (download_get env args)).
  unfold download_get.
  destruct (py_not _ || py_not _)%bool.
  { apply engine_bounded_of_quiet, emits_only_ret. }
  apply quiet_then_engine_bounded.
  { intros w. unfold mkdtemp. destruct (env_mkdtemp env (fs w)) as [e|tmp].
    - exists []. by rewrite app_nil_r.
    - destruct (fs w !! tmp); [exists []; by rewrite app_nil_r|].
      exists [EvMkdtemp tmp]. split; [done|]. by repeat constructor. }
  intros tmp. apply engine_bounded_try_finally_rmtree.
  apply engine_bounded_try_except.
  - apply engine_bounded_then_quiet.
    + unfold download_single. apply quiet_then_engine_bounded.
      { apply emits_only_lift. }
      intros opts. apply engine_bounded_then_quiet.
      { apply engine_bounded_retry_loop. }
      intros _. by apply emits_only_find_file.
    + intros path. apply emits_only_bind.
      { apply emits_only_bind; [by apply emits_only_emit|]. intros _.
        apply emits_only_ret. }
      intros s. apply emits_only_bind; [by apply emits_only_session_commit|].
      intros _. by apply emits_only_send_file.
  - intros e. apply emits_only_bind; [by apply emits_only_emit|]. intros _.
    apply emits_only_ret.
Qed.

(** ** The file that is served *)




(** ** The timestamp of a record determines the instant *)

Lemma append_inj_length (a a' b b' : string) :
  String.length a = String.length a' →
  a +:+ b = a' +:+ b' → a = a' ∧ b = b'.
Proof.
  revert a'. induction a as [|c a IH]; intros [|c' a'] Hl H; try done.
  rewrite !append_cons in H. injection H as -> H. simpl in Hl.
  destruct (IH a') as [-> ->]; [lia|done|done].
Qed.

Lemma digits_length (w n : nat) : String.length (digits w n) = w.
Proof.
  revert n. induction w as [|w IH]; intros n; [done|].
  simpl. rewrite append_length, IH. simpl. lia.
Qed.

Lemma digit_inj (n m : nat) : digit n = digit m → n mod 10 = m mod 10.
Proof.
  unfold digit. intros H.
  pose proof (Nat.mod_upper_bound n 10 ltac:(done)).
  pose proof (Nat.mod_upper_bound m 10 ltac:(done)).
  apply (f_equal nat_of_ascii) in H.
  rewrite !nat_ascii_embedding in H by lia. lia.
Qed.

Lemma digits_inj (w n m : nat) :
  n < 10 ^ w → m < 10 ^ w → digits w n = digits w m → n = m.
Proof.
  revert n m. induction w as [|w IH]; intros n m Hn Hm H.
  - simpl in Hn, Hm. lia.
  - change (digits w (n / 10) +:+ String (digit n) ""
            = digits w (m / 10) +:+ String (digit m) "") in H.
    apply append_inj_length in H as [H1 H2]; [|by rewrite !digits_length].
    injection H2 as H2%digit_inj.
    rewrite Nat.pow_succ_r' in Hn, Hm.
    apply IH in H1; [|by apply Nat.Div0.div_lt_upper_bound..].
    rewrite (Nat.div_mod_eq n 10), (Nat.div_mod_eq m 10). lia.
Qed.

Lemma append_cancel_r (a a' s : string) : a +:+ s = a' +:+ s → a = a'.
Proof.
  intros H. apply (append_inj_length a a' s s); [|done].
  apply (f_equal String.length) in H. rewrite !append_length in H. lia.
Qed.

Lemma lt_100_pow (n : nat) : n < 100 → n < 10 ^ 2.
Proof. by change (10 ^ 2) with 100. Qed.

Lemma iso8601_inj (d1 d2 : datetime) :
  valid_datetime d1 → valid_datetime d2 → iso8601 d1 = iso8601 d2 → d1 = d2.
Proof.
  intros ([_ Hy1] & [_ Hm1] & [_ Hd1] & Hh1 & Hmi1 & Hs1 & Hus1)
         ([_ Hy2] & [_ Hm2] & [_ Hd2] & Hh2 & Hmi2 & Hs2 & Hus2).
  unfold iso8601. intros H.
  apply append_inj_length in H as [Hy H]; [|by rewrite !digits_length].
  apply (inj (String.append "-")) in H.
  apply append_inj_length in H as [Hm H]; [|by rewrite !digits_length].
  apply (inj (String.append "-")) in H.
  apply append_inj_length in H as [Hd H]; [|by rewrite !digits_length].
  apply (inj (String.append "T")) in H.
  apply append_inj_length in H as [Hh H]; [|by rewrite !digits_length].
  apply (inj (String.append ":")) in H.
  apply append_inj_length in H as [Hmi H]; [|by rewrite !digits_length].
  apply (inj (String.append ":")) in H.
  apply append_inj_length in H as [Hs H]; [|by rewrite !digits_length].
  apply (digits_inj 4 _ _ Hy1 Hy2) in Hy.
  assert (Hm' : dt_month d1 < 100 ∧ dt_month d2 < 100) by lia.
  assert (Hd' : dt_day d1 < 100 ∧ dt_day d2 < 100) by lia.
  assert (Hh' : dt_hour d1 < 100 ∧ dt_hour d2 < 100) by lia.
  assert (Hmi' : dt_minute d1 < 100 ∧ dt_minute d2 < 100) by lia.
  assert (Hs' : dt_second d1 < 100 ∧ dt_second d2 < 100) by lia.
  apply (digits_inj 2 _ _ (lt_100_pow _ (proj1 Hm')) (lt_100_pow _ (proj2 Hm')))
    in Hm.
  apply (digits_inj 2 _ _ (lt_100_pow _ (proj1 Hd')) (lt_100_pow _ (proj2 Hd')))
    in Hd.
  apply (digits_inj 2 _ _ (lt_100_pow _ (proj1 Hh')) (lt_100_pow _ (proj2 Hh')))
    in Hh.
  apply (digits_inj 2 _ _ (lt_100_pow _ (proj1 Hmi')) (lt_100_pow _ (proj2 Hmi')))
    in Hmi.
  apply (digits_inj 2 _ _ (lt_100_pow _ (proj1 Hs')) (lt_100_pow _ (proj2 Hs')))
    in Hs.
  assert (Hus : dt_microsecond d1 = dt_microsecond d2).
  { destruct (Nat.eqb_spec (dt_microsecond d1) 0) as [E1|E1],
      (Nat.eqb_spec (dt_microsecond d2) 0) as [E2|E2].
    - congruence.
    - discriminate H.
    - discriminate H.
    - apply (inj (String.append ".")) in H.
      exact (digits_inj 6 _ _ Hus1 Hus2 H). }
  clear - Hy Hm Hd Hh Hmi Hs Hus.
  destruct d1, d2. simpl in *. by subst.
Qed.

Lemma as_dict_fields (r : DownloadHistory) :
  as_dict r !! "id" = Some (PyInt (Z.of_nat (rec_id r)))
  ∧ as_dict r !! "url" = Some (PyStr (rec_url r))
  ∧ as_dict r !! "file_format" = Some (PyStr (rec_file_format r))
  ∧ as_dict r !! "quality" = Some (PyStr (rec_quality r)).
Proof. unfold as_dict. simpl. repeat split; by simplify_map_eq. Qed.

(** X14: the JSON record of a row loses nothing: two rows whose timestamps are
    valid and whose [as_dict] agree are the same row; in particular the
    rendered timestamp determines the instant to the microsecond. *)
Theorem as_dict_inj (r1 r2 : DownloadHistory) :
  valid_datetime (rec_timestamp r1) → valid_datetime (rec_timestamp r2) →
  as_dict r1 = as_dict r2 → r1 = r2.
Proof.
  intros Hv1 Hv2 H.
  destruct (as_dict_fields r1) as (Hi1 & Hu1 & Hf1 & Hq1).
  destruct (as_dict_fields r2) as (Hi2 & Hu2 & Hf2 & Hq2).
  pose proof (as_dict_timestamp r1) as Ht1.
  pose proof (as_dict_timestamp r2) as Ht2.
  rewrite H in Hi1, Hu1, Hf1, Hq1, Ht1.
  rewrite Hi2 in Hi1. rewrite Hu2 in Hu1. rewrite Hf2 in Hf1.
  rewrite Hq2 in Hq1. rewrite Ht2 in Ht1.
  injection Hi1 as Hi%Nat2Z.inj. injection Hu1 as Hu. injection Hf1 as Hf.
  injection Hq1 as Hq. injection Ht1 as Ht%append_cancel_r.
  rewrite !isoformat_iso8601 in Ht by done.
  apply iso8601_inj in Ht; [|done..].
  destruct r1, r2. simpl in *. by subst.
Qed.

Lemma stub_now_valid : valid_datetime stub_now.
Proof.
  unfold valid_datetime, stub_now. simpl dt_year. simpl dt_month.
  simpl dt_day. simpl dt_hour. simpl dt_minute. simpl dt_second.
  simpl dt_microsecond.
  repeat split; try lia.
  - apply Nat.ltb_lt. by vm_compute.
  - apply Nat.neq_0_lt_0, Nat.pow_nonzero. done.
Qed.

Lemma as_dict_inj_witness :
  Row 1 "https://example.com/video" "mp4" "best" stub_now
  = Row 1 "https://example.com/video" "mp4" "best" stub_now.
Proof.
  exact (as_dict_inj
           (Row 1 "https://example.com/video" "mp4" "best" stub_now)
           (Row 1 "https://example.com/video" "mp4" "best" stub_now)
           stub_now_valid stub_now_valid eq_refl).
Defined.
